(** * Export engine of claude-mcp-app: [export_utils.py]

    A shallow embedding of the export functions of
    [servers/claude-mcp-app/export_utils.py] together with the parts of
    the Python runtime they lean on (string methods, [os.path], [open],
    [os.makedirs], [csv.DictWriter]), and the properties of the export
    engine stated over that embedding.

    Conventions of the embedding:
    - a Python [str] is a [string]; its characters are read as code
      points below 256, and [lower] maps the ASCII letters only;
    - a Python float is carried by the text that [repr] prints for it;
    - exceptions are values ([exn]); a function that may raise returns a
      [result]; functions that touch the file system thread an [fsys];
    - [logger] calls have no influence on results and are left out. *)

From Stdlib Require Import ZArith Ascii String DecimalString.
From stdpp Require Import base tactics option list gmap strings.

Local Open Scope Z_scope.

(** ** Python string methods *)

Module PyStr.

(** The double quote character, which no string literal of this file
    spells out. *)
Definition dquote : ascii := ascii_of_nat 34.
Definition squote : ascii := ascii_of_nat 39.
Definition backslash : ascii := ascii_of_nat 92.
Definition LF : ascii := ascii_of_nat 10.
Definition CR : ascii := ascii_of_nat 13.
Definition TAB : ascii := ascii_of_nat 9.

Definition chr (c : ascii) : string := String c "".
Definition nl : string := chr LF.

(** [c.lower()] on one character: only [A]..[Z] change. *)
Definition lower_char (c : ascii) : ascii :=
  let n := nat_of_ascii c in
  if ((65 <=? n) && (n <=? 90))%nat then ascii_of_nat (n + 32) else c.

(** [s.lower()] *)
Fixpoint lower (s : string) : string :=
  match s with
  | "" => ""
  | String c s' => String (lower_char c) (lower s')
  end.

(** [s.startswith(p)] *)
Fixpoint startswith (s p : string) {struct p} : bool :=
  match p, s with
  | "", _ => true
  | String _ _, "" => false
  | String a p', String b s' => if decide (a = b) then startswith s' p' else false
  end.

(** [s.endswith(suf)]: some tail of [s] is [suf]. *)
Fixpoint endswith (s suf : string) : bool :=
  if decide (s = suf) then true
  else match s with
       | "" => false
       | String _ s' => endswith s' suf
       end.

(** [s.lstrip(c)] for a one-character argument. *)
Fixpoint lstrip (c : ascii) (s : string) : string :=
  match s with
  | String a s' => if decide (a = c) then lstrip c s' else s
  | "" => ""
  end.

(** [c in s] for a character [c]. *)
Fixpoint contains (c : ascii) (s : string) : bool :=
  match s with
  | "" => false
  | String a s' => if decide (a = c) then true else contains c s'
  end.

(** [s * n] *)
Fixpoint repeat (s : string) (n : nat) : string :=
  match n with
  | O => ""
  | S n' => s +:+ repeat s n'
  end.

(** [''.join(l)] *)
Fixpoint concat (l : list string) : string :=
  match l with
  | [] => ""
  | s :: l' => s +:+ concat l'
  end.

(** [sep.join(l)] *)
Fixpoint join (sep : string) (l : list string) : string :=
  match l with
  | [] => ""
  | [s] => s
  | s :: l' => s +:+ sep +:+ join sep l'
  end.

(** [s.split(sep)] for a one-character separator: never empty, and
    [split sep "" = [""]]. *)
Fixpoint split (sep : ascii) (s : string) : list string :=
  match s with
  | "" => [""]
  | String c s' =>
      if decide (c = sep) then "" :: split sep s'
      else match split sep s' with
           | w :: ws => String c w :: ws
           | [] => [chr c]
           end
  end.

(** [c.isalnum()] on the ASCII range. *)
Definition isalnum (c : ascii) : bool :=
  let n := nat_of_ascii c in
  (((48 <=? n) && (n <=? 57)) || ((65 <=? n) && (n <=? 90))
   || ((97 <=? n) && (n <=? 122)))%nat.

(** [''.join(c for c in s if p(c))] *)
Fixpoint filter (p : ascii -> bool) (s : string) : string :=
  match s with
  | "" => ""
  | String c s' => if p c then String c (filter p s') else filter p s'
  end.

(** [str(n)] for an integer. *)
Definition of_Z (z : Z) : string := NilZero.string_of_int (Z.to_int z).
Definition of_nat (n : nat) : string := of_Z (Z.of_nat n).

Definition hex_digit (n : nat) : ascii :=
  if (n <? 10)%nat then ascii_of_nat (48 + n) else ascii_of_nat (87 + n).

(** The two lowercase hexadecimal digits of a character code. *)
Definition hex2 (c : ascii) : string :=
  let n := nat_of_ascii c in
  String (hex_digit (n / 16)) (chr (hex_digit (n mod 16))).

(** [repr(s)] for a string: single quotes unless the text holds a
    single quote and no double quote; the quote, the backslash and the
    non-printable characters are escaped. *)
Definition repr_char (quote c : ascii) : string :=
  let n := nat_of_ascii c in
  if decide (c = quote) then String backslash (chr c)
  else if decide (c = backslash) then String backslash (chr c)
  else if decide (c = TAB) then String backslash "t"
  else if decide (c = LF) then String backslash "n"
  else if decide (c = CR) then String backslash "r"
  else if ((n <? 32) || ((127 <=? n) && (n <=? 160)) || (n =? 173))%nat
       then String backslash ("x" +:+ hex2 c)
  else chr c.

Fixpoint repr_body (quote : ascii) (s : string) : string :=
  match s with
  | "" => ""
  | String c s' => repr_char quote c +:+ repr_body quote s'
  end.

Definition repr (s : string) : string :=
  let quote := if contains squote s && negb (contains dquote s)
               then dquote else squote in
  String quote (repr_body quote s +:+ chr quote).

End PyStr.

(** ** The value model: what [data] can be *)

(** The JSON-like Python values the export functions receive.  A [dict]
    keeps its insertion order, which every renderer observes, so it is an
    association list; its keys are text. *)
#[warnings="-register-all"]
Inductive Value : Type :=
| VNone
| VBool (b : bool)
| VInt (n : Z)
| VFloat (repr : string)
| VStr (s : string)
| VList (items : list Value)
| VDict (entries : list (string * Value)).

(** [isinstance(v, dict)] *)
Definition is_dict (v : Value) : bool :=
  match v with VDict _ => true | _ => false end.

(** [type(v).__name__] *)
Definition type_name (v : Value) : string :=
  match v with
  | VNone => "NoneType"
  | VBool _ => "bool"
  | VInt _ => "int"
  | VFloat _ => "float"
  | VStr _ => "str"
  | VList _ => "list"
  | VDict _ => "dict"
  end.

(** [repr(v)] *)
Fixpoint py_repr (v : Value) : string :=
  match v with
  | VNone => "None"
  | VBool true => "True"
  | VBool false => "False"
  | VInt n => PyStr.of_Z n
  | VFloat r => r
  | VStr s => PyStr.repr s
  | VList l => "[" +:+ PyStr.join ", " (map py_repr l) +:+ "]"
  | VDict d =>
      "{" +:+ PyStr.join ", "
                (map (fun '(k, x) => PyStr.repr k +:+ ": " +:+ py_repr x) d)
          +:+ "}"
  end.

(** [str(v)], which is also what an f-string field [{v}] prints. *)
Definition py_str (v : Value) : string :=
  match v with
  | VStr s => s
  | _ => py_repr v
  end.

(** [d.get(key, default)] and [key in d] on the association list; keys
    are unique in a [dict], so the first hit is the only one. *)
Fixpoint dict_get (d : list (string * Value)) (key : string) : option Value :=
  match d with
  | [] => None
  | (k, x) :: d' => if decide (k = key) then Some x else dict_get d' key
  end.

Definition dict_keys (d : list (string * Value)) : list string := map fst d.

(** ** Markdown: [dict_to_markdown] inside [export_to_markdown] *)

Import PyStr (nl).

(** [f"{'#' * (level + 1)} {key}\n\n"] *)
Definition md_heading (level : nat) (key : string) : string :=
  PyStr.repeat "#" (level + 1) +:+ " " +:+ key +:+ nl +:+ nl.

(** What one turn of the loop of [dict_to_markdown(data, level)] appends
    after the heading of the entry: the three [isinstance] branches on
    [value].  The recursive call [dict_to_markdown(value, level + 1)] is
    the inner loop [entries] run one level deeper, and the call on a list
    item that is a dict is the same call on that item. *)
Fixpoint md_of_value (value : Value) (level : nat) {struct value} : string :=
  match value with
  | VDict d =>
      (fix entries (d : list (string * Value)) : string :=
         match d with
         | [] => ""
         | (key, x) :: d' =>
             md_heading (S level) key +:+ md_of_value x (S level) +:+ entries d'
         end) d
  | VList l =>
      (fix items (l : list Value) : string :=
         match l with
         | [] => ""
         | item :: l' =>
             (if is_dict item then md_of_value item level
              else "- " +:+ py_str item +:+ nl) +:+ items l'
         end) l +:+ nl
  | _ => py_str value +:+ nl +:+ nl
  end.

(** [dict_to_markdown(data, level)]: the loop over [data.items()]. *)
Fixpoint dict_to_markdown (data : list (string * Value)) (level : nat) : string :=
  match data with
  | [] => ""
  | (key, value) :: data' =>
      md_heading level key +:+ md_of_value value level +:+ dict_to_markdown data' level
  end.

(** The text [export_to_markdown] writes: the title line, then
    [dict_to_markdown(data)] at the default level 1. *)
Definition markdown_document (data : list (string * Value)) (title : string) : string :=
  "# " +:+ title +:+ nl +:+ nl +:+ dict_to_markdown data 1.

(** ** HTML: [dict_to_html] inside [export_to_html] *)

(** [f"<h{level + 1}>{key}</h{level + 1}>\n"] *)
Definition html_heading (level : nat) (key : string) : string :=
  "<h" +:+ PyStr.of_nat (level + 1) +:+ ">" +:+ key
       +:+ "</h" +:+ PyStr.of_nat (level + 1) +:+ ">" +:+ nl.

(** The entries of a value known to be a dict ([item.get] and
    [value[0].keys()] are only reached behind the [all(isinstance ...)]
    test). *)
Definition entries_of (v : Value) : list (string * Value) :=
  match v with VDict d => d | _ => [] end.

(** The cell of [item] under [header]: [item.get(header, '')] between
    [<td>] and [</td>]. *)
Definition html_cell (item : Value) (header : string) : string :=
  "<td>" +:+ match dict_get (entries_of item) header with
             | Some x => py_str x
             | None => ""
             end +:+ "</td>" +:+ nl.

Definition html_row (headers : list string) (item : Value) : string :=
  "<tr>" +:+ nl +:+ PyStr.concat (map (html_cell item) headers) +:+ "</tr>" +:+ nl.

(** The table of a non-empty list of dicts: header row from the keys of
    [value[0]], then one row per item. *)
Definition html_table (first : Value) (value : list Value) : string :=
  let headers := dict_keys (entries_of first) in
  "<table>" +:+ nl +:+ "<tr>" +:+ nl
    +:+ PyStr.concat (map (fun header => "<th>" +:+ header +:+ "</th>" +:+ nl) headers)
    +:+ "</tr>" +:+ nl
    +:+ PyStr.concat (map (html_row headers) value)
    +:+ "</table>" +:+ nl.

Definition html_ul (value : list Value) : string :=
  "<ul>" +:+ nl
    +:+ PyStr.concat (map (fun item => "<li>" +:+ py_str item +:+ "</li>" +:+ nl) value)
    +:+ "</ul>" +:+ nl.

(** The list branch of [dict_to_html]: [all(...)] first, and inside it
    [if value:] with no [else]. *)
Definition html_of_list (value : list Value) : string :=
  if forallb is_dict value then
    match value with
    | first :: _ => html_table first value
    | [] => ""
    end
  else html_ul value.

(** What one turn of the loop of [dict_to_html(data, level)] appends
    after the heading. *)
Fixpoint html_of_value (value : Value) (level : nat) {struct value} : string :=
  match value with
  | VDict d =>
      (fix entries (d : list (string * Value)) : string :=
         match d with
         | [] => ""
         | (key, x) :: d' =>
             html_heading (S level) key +:+ html_of_value x (S level) +:+ entries d'
         end) d
  | VList l => html_of_list l
  | _ => "<p>" +:+ py_str value +:+ "</p>" +:+ nl
  end.

(** [dict_to_html(data, level)] *)
Fixpoint dict_to_html (data : list (string * Value)) (level : nat) : string :=
  match data with
  | [] => ""
  | (key, value) :: data' =>
      html_heading level key +:+ html_of_value value level +:+ dict_to_html data' level
  end.

(** ** [os.path] (posixpath) *)

Module OsPath.

(** [s.rfind(c)] with indices counted from [i]: the greatest index of
    [c], or [-1]. *)
Fixpoint rfind_from (c : ascii) (s : string) (i : Z) : Z :=
  match s with
  | "" => -1
  | String a s' =>
      let r := rfind_from c s' (i + 1) in
      if 0 <=? r then r else if decide (a = c) then i else -1
  end.

Definition rfind (c : ascii) (s : string) : Z := rfind_from c s 0.

(** [s[:n]] and [s[n:]] for [0 <= n] *)
Fixpoint take (n : nat) (s : string) : string :=
  match n, s with
  | S n', String a s' => String a (take n' s')
  | _, _ => ""
  end.

Fixpoint drop (n : nat) (s : string) : string :=
  match n, s with
  | S n', String _ s' => drop n' s'
  | _, _ => s
  end.

(** Some character of [s] is not [c]. *)
Fixpoint has_other (c : ascii) (s : string) : bool :=
  match s with
  | "" => false
  | String a s' => if decide (a = c) then has_other c s' else true
  end.

(** [os.path.splitext(p)]: the extension starts at the last dot of the
    last path component, unless only dots come before it there. *)
Definition splitext (p : string) : string * string :=
  let sepIndex := rfind "/" p in
  let dotIndex := rfind "." p in
  if (sepIndex <? dotIndex)
     && has_other "." (take (Z.to_nat (dotIndex - (sepIndex + 1)))
                            (drop (Z.to_nat (sepIndex + 1)) p))
  then (take (Z.to_nat dotIndex) p, drop (Z.to_nat dotIndex) p)
  else (p, "").

(** [os.path.isabs(s)] *)
Definition isabs (s : string) : bool := PyStr.startswith s "/".

(** [os.path.join(a, b)] *)
Definition join (a b : string) : string :=
  if PyStr.startswith b "/" then b
  else if decide (a = "") then b
  else if PyStr.endswith a "/" then a +:+ b
  else a +:+ "/" +:+ b.

(** One turn of the loop of [normpath] over the components. *)
Definition norm_step (initial_slashes : nat) (new_comps : list string)
    (comp : string) : list string :=
  if decide (comp = "" ∨ comp = ".") then new_comps
  else if decide (comp ≠ ".."
                  ∨ (initial_slashes = 0%nat ∧ new_comps = [])
                  ∨ (new_comps ≠ [] ∧ last new_comps = Some ".."))
       then new_comps ++ [comp]
  else removelast new_comps.

Definition initial_slashes (path : string) : nat :=
  if PyStr.startswith path "/" then
    if PyStr.startswith path "//" && negb (PyStr.startswith path "///")
    then 2%nat else 1%nat
  else 0%nat.

(** The components [normpath] keeps. *)
Definition norm_comps (path : string) : list string :=
  fold_left (norm_step (initial_slashes path)) (PyStr.split "/" path) [].

(** [os.path.normpath(path)] *)
Definition normpath (path : string) : string :=
  if decide (path = "") then "."
  else
    let path' := PyStr.repeat "/" (initial_slashes path)
                   +:+ PyStr.join "/" (norm_comps path) in
    if decide (path' = "") then "." else path'.

(** [os.path.abspath(path)] under the working directory [cwd]. *)
Definition abspath (cwd path : string) : string :=
  normpath (if isabs path then path else join cwd path).

End OsPath.

(** ** Exceptions and results *)

(** The exception classes that occur; all derive from [Exception].
    [ExportError] is the module's own class; [LibraryError] stands for
    whatever a serialisation library raises. *)
Inductive exn_class : Type :=
| ExportError
| FileExistsError
| FileNotFoundError
| NotADirectoryError
| IsADirectoryError
| ValueError
| AttributeError
| LibraryError (name : string).

(** An exception object: its class, [str(e)], and [e.__cause__] as set by
    [raise ... from e]. *)
#[warnings="-register-all"]
Inductive exn : Type :=
| Exn (cls : exn_class) (msg : string) (cause : option exn).

Definition exn_cls (e : exn) : exn_class := let 'Exn c _ _ := e in c.
Definition exn_msg (e : exn) : string := let 'Exn _ m _ := e in m.
Definition exn_cause (e : exn) : option exn := let 'Exn _ _ c := e in c.

Definition is_export_error (e : exn) : bool :=
  match exn_cls e with ExportError => true | _ => false end.

(** The outcome of a call: a returned value or a raised exception. *)
Inductive result (A : Type) : Type :=
| Return (a : A)
| Raise (e : exn).
Arguments Return {A} a.
Arguments Raise {A} e.

(** [raise ExportError(error_msg) from e] with
    [error_msg = f"Failed to export data to {what}: {str(e)}"], the
    handler every codec ends with. *)
Definition export_failure (what : string) (e : exn) : exn :=
  Exn ExportError ("Failed to export data to " +:+ what +:+ ": " +:+ exn_msg e) (Some e).

(** [try: body  except Exception as e: raise ExportError(...) from e] *)
Definition wrap_failure {A} (what : string) (r : result A) : result A :=
  match r with
  | Return a => Return a
  | Raise e => Raise (export_failure what e)
  end.

(** ** The file system *)

Inductive node : Type :=
| Dir
| File (content : string).

(** The working directory of the process and the nodes of the tree,
    keyed by the components of their normalised absolute path; the root
    is the empty key and is always a directory.  Permissions and links
    are outside the model. *)
Record fsys : Type := { cwd : string; nodes : gmap (list string) node }.

Definition key_of (st : fsys) (path : string) : list string :=
  OsPath.norm_comps (if OsPath.isabs path then path else OsPath.join (cwd st) path).

Definition node_at (m : gmap (list string) node) (key : list string) : option node :=
  match key with
  | [] => Some Dir
  | _ => m !! key
  end.

(** An [OSError] of the given subclass; [str(e)] reads
    [[Errno n] strerror: 'path']. *)
Definition os_error (cls : exn_class) (errno strerror path : string) : exn :=
  Exn cls ("[Errno " +:+ errno +:+ "] " +:+ strerror +:+ ": " +:+ PyStr.repr path) None.

(** [os.makedirs(name, exist_ok=True)] walks down from the root: a
    component that is there as a directory is entered, a missing one is
    created, and a regular file in the way makes [mkdir] fail. *)
Fixpoint makedirs_from (name : string) (m : gmap (list string) node)
    (done rest : list string) : gmap (list string) node * result unit :=
  match rest with
  | [] => (m, Return tt)
  | comp :: rest' =>
      let key := done ++ [comp] in
      match m !! key with
      | Some Dir => makedirs_from name m key rest'
      | Some (File _) =>
          (m, Raise (match rest' with
                     | [] => os_error FileExistsError "17" "File exists" name
                     | _ => os_error NotADirectoryError "20" "Not a directory" name
                     end))
      | None => makedirs_from name (<[key := Dir]> m) key rest'
      end
  end.

Definition makedirs (name : string) (st : fsys) : fsys * result unit :=
  let '(m, r) := makedirs_from name (nodes st) [] (key_of st name) in
  ({| cwd := cwd st; nodes := m |}, r).

(** [with open(filename, 'w') as f: f.write(text)]: the parent must be a
    directory and the target must not be one; the file is created or
    truncated and then holds [text]. *)
Definition open_w (filename : string) (text : string) (st : fsys) : fsys * result unit :=
  let key := key_of st filename in
  match key with
  | [] => (st, Raise (os_error IsADirectoryError "21" "Is a directory" filename))
  | _ =>
      match node_at (nodes st) (removelast key) with
      | None => (st, Raise (os_error FileNotFoundError "2" "No such file or directory" filename))
      | Some (File _) => (st, Raise (os_error NotADirectoryError "20" "Not a directory" filename))
      | Some Dir =>
          match nodes st !! key with
          | Some Dir => (st, Raise (os_error IsADirectoryError "21" "Is a directory" filename))
          | _ => ({| cwd := cwd st; nodes := <[key := File text]> (nodes st) |}, Return tt)
          end
      end
  end.

(** The regular files of a state, with their contents. *)
Definition file_content (n : node) : option string :=
  match n with File c => Some c | Dir => None end.

Definition files (st : fsys) : gmap (list string) string :=
  omap file_content (nodes st).

(** [os.path.abspath(filename)] in a state. *)
Definition abspath (st : fsys) (filename : string) : string :=
  OsPath.abspath (cwd st) filename.

(** ** [csv.DictWriter] with its defaults

    [csv.DictWriter(csvfile, fieldnames=headers)] has [restval=''],
    [extrasaction='raise'] and the [excel] dialect: comma, double quote,
    minimal quoting, doubled quotes, rows ended by CR LF. *)

Module Csv.
Import PyStr.

Definition lineterminator : string := String CR (chr LF).

Definition needs_quotes (field : string) : bool :=
  contains "," field || contains dquote field || contains CR field || contains LF field.

Fixpoint double_quotes (field : string) : string :=
  match field with
  | "" => ""
  | String c s' =>
      if decide (c = dquote) then String c (String c (double_quotes s'))
      else String c (double_quotes s')
  end.

Definition quote_field (field : string) : string :=
  if needs_quotes field then String dquote (double_quotes field +:+ chr dquote)
  else field.

(** [writer.writerow(fields)]: a lone empty field is written quoted. *)
Definition writerow (fields : list string) : string :=
  let rec := join "," (map quote_field fields) in
  (if decide (fields ≠ [] ∧ rec = "") then String dquote (chr dquote) else rec)
    +:+ lineterminator.

(** The text of a cell: [None] is empty, a [str] is itself, anything
    else goes through [str()]. *)
Definition field_text (v : Value) : string :=
  match v with
  | VNone => ""
  | _ => py_str v
  end.

(** [rowdict.keys() - self.fieldnames] *)
Definition wrong_fields (fieldnames : list string) (rowdict : list (string * Value))
    : list string :=
  List.filter (fun k => negb (bool_decide (k ∈ fieldnames))) (dict_keys rowdict).

(** [DictWriter._dict_to_list]: refuse a row with a key outside
    [fieldnames], else [rowdict.get(key, '')] for each field name.
    (The order of the names in the message is that of a set in Python;
    here it is the row's.) *)
Definition dict_to_list (fieldnames : list string) (rowdict : list (string * Value))
    : result (list string) :=
  match wrong_fields fieldnames rowdict with
  | [] =>
      Return (map (fun key => match dict_get rowdict key with
                              | Some v => field_text v
                              | None => ""
                              end) fieldnames)
  | wrong =>
      Raise (Exn ValueError
               ("dict contains fields not in fieldnames: " +:+ join ", " (map repr wrong))
               None)
  end.

(** [writer.writeheader()]: the row that maps each field name to
    itself. *)
Definition writeheader (fieldnames : list string) : string := writerow fieldnames.

(** [writer.writerows(data)]: rows are converted and written one after
    the other; the text written so far stays when a row is refused. *)
Fixpoint writerows (fieldnames : list string) (data : list (list (string * Value)))
    : string * option exn :=
  match data with
  | [] => ("", None)
  | rowdict :: data' =>
      match dict_to_list fieldnames rowdict with
      | Raise e => ("", Some e)
      | Return fields =>
          let '(text, e) := writerows fieldnames data' in
          (writerow fields +:+ text, e)
      end
  end.

End Csv.

(** ** XML: the element tree built by [dict_to_xml] *)

(** [xml.etree.ElementTree.Element]: tag, text, children. *)
#[warnings="-register-all"]
Inductive element : Type :=
| Element (tag : string) (text : option string) (children : list element).

(** [''.join(c for c in str(key) if c.isalnum() or c == '_')], or
    ["item"] when nothing is left. *)
Definition element_name (key : string) : string :=
  let name := PyStr.filter (fun c => PyStr.isalnum c || bool_decide (c = "_"%char)) key in
  if decide (name = "") then "item" else name.

(** The sub-element [dict_to_xml] appends for one entry, named [name]. *)
Fixpoint xml_of_value (name : string) (value : Value) {struct value} : element :=
  match value with
  | VDict d =>
      Element name None
        ((fix entries (d : list (string * Value)) : list element :=
            match d with
            | [] => []
            | (key, x) :: d' => xml_of_value (element_name key) x :: entries d'
            end) d)
  | VList l =>
      Element name None
        (map (fun item =>
                if is_dict item then xml_of_value "item" item
                else Element "item" (Some (py_str item)) []) l)
  | _ => Element name (Some (py_str value)) []
  end.

(** ** Configuration: what [get_config()] returns *)

(** [config.ExportConfig] and the part of [config.AppConfig] the export
    engine reads. *)
Record ExportConfig : Type := {
  output_dir : string;
  default_format : string;
  max_file_size_mb : Z
}.

Record AppConfig : Type := { export : ExportConfig }.

(** [AppConfig.from_dict(DEFAULT_CONFIG)] *)
Definition DEFAULT_CONFIG : AppConfig :=
  {| export := {| output_dir := "./output"; default_format := "json";
                  max_file_size_mb := 100 |} |}.

(** ** The serialisation libraries

    What the module hands over to [json], [yaml], [pickle],
    [xml.dom.minidom], [pandas]/[xlsxwriter] and [sqlite3].  Their
    output is not computed here: the engine is stated for any behaviour
    of theirs.  A dump writes some text into the open file and may then
    raise; the two [pandas] writers open the target themselves, so they
    are transitions of the file system. *)
Class Libraries : Type := {
  (** [json.dump(data, f, indent=indent)] *)
  json_dump : Value -> option nat -> string * option exn;
  (** [yaml.dump(data, f, default_flow_style=False, sort_keys=False)] *)
  yaml_dump : Value -> string * option exn;
  (** [pickle.dump(data, f)] *)
  pickle_dump : Value -> string * option exn;
  (** [minidom.parseString(ET.tostring(root, encoding='unicode')).toprettyxml(indent="  ")] *)
  toprettyxml : element -> result string;
  (** lines 392-424 of [export_to_excel]: [pd.DataFrame(data)],
      [pd.ExcelWriter(filename, engine='xlsxwriter')], [df.to_excel],
      the header format and column widths, [writer.close()] *)
  excel_workbook : list (list (string * Value)) -> string -> string -> fsys -> fsys * option exn;
  (** lines 455-464 of [export_to_sqlite]: [pd.DataFrame(data)],
      [sqlite3.connect(filename)], [df.to_sql(table_name, ...)],
      [conn.close()] *)
  sqlite_table : list (list (string * Value)) -> string -> string -> fsys -> fsys * option exn
}.

(** ** The codecs *)

Section Codecs.
Context {libs : Libraries}.

(** [if not filename.lower().endswith(ext): filename += ext] *)
Definition with_extension (ext : string) (filename : string) : string :=
  if PyStr.endswith (PyStr.lower filename) ext then filename else filename +:+ ext.

(** [if not filename.lower().endswith((ext1, ext2)): filename += ext1] *)
Definition with_extension2 (ext1 ext2 : string) (filename : string) : string :=
  if PyStr.endswith (PyStr.lower filename) ext1 || PyStr.endswith (PyStr.lower filename) ext2
  then filename else filename +:+ ext1.

(** The tail shared by the text codecs: open [filename] for writing,
    write what the producer wrote before it stopped, and return
    [os.path.abspath(filename)] unless the producer raised. *)
Definition write_out (filename : string) (out : string * option exn) (st : fsys)
    : fsys * result string :=
  let '(st', r) := open_w filename (fst out) st in
  match r with
  | Raise e => (st', Raise e)
  | Return _ =>
      match snd out with
      | Some e => (st', Raise e)
      | None => (st', Return (abspath st' filename))
      end
  end.

(** The [try ... except Exception as e: raise ExportError(...) from e]
    that is the body of every codec. *)
Definition guarded (what : string) (body : fsys * result string) : fsys * result string :=
  (fst body, wrap_failure what (snd body)).

(** [export_to_csv(data, filename, headers)] *)
Definition export_to_csv (data : list (list (string * Value))) (filename : string)
    (headers : option (list string)) (st : fsys) : fsys * result string :=
  guarded "CSV"
    (let filename := with_extension ".csv" filename in
     let headers :=
       match headers, data with
       | None, first :: _ => Some (dict_keys first)
       | _, _ => headers
       end in
     let out :=
       match headers with
       | Some ((_ :: _) as fieldnames) =>
           let '(rows, e) := Csv.writerows fieldnames data in
           (Csv.writeheader fieldnames +:+ rows, e)
       | _ => ("", None)
       end in
     write_out filename out st).

(** [export_to_json(data, filename, pretty)] *)
Definition export_to_json (data : Value) (filename : string) (pretty : bool) (st : fsys)
    : fsys * result string :=
  guarded "JSON"
    (let filename := with_extension ".json" filename in
     write_out filename (json_dump data (if pretty then Some 2%nat else None)) st).

(** [data.items()] on whatever [data] is. *)
Definition items (data : Value) : result (list (string * Value)) :=
  match data with
  | VDict d => Return d
  | _ => Raise (Exn AttributeError
                  ("'" +:+ type_name data +:+ "' object has no attribute 'items'") None)
  end.

(** [export_to_xml(data, filename, root_element)] *)
Definition export_to_xml (data : Value) (filename : string) (root_element : string)
    (st : fsys) : fsys * result string :=
  guarded "XML"
    (let filename := with_extension ".xml" filename in
     match items data with
     | Raise e => (st, Raise e)
     | Return d =>
         match toprettyxml (xml_of_value root_element (VDict d)) with
         | Raise e => (st, Raise e)
         | Return xml_string => write_out filename (xml_string, None) st
         end
     end).

(** [export_to_markdown(data, filename, title)] *)
Definition export_to_markdown (data : Value) (filename : string) (title : string)
    (st : fsys) : fsys * result string :=
  guarded "Markdown"
    (let filename := with_extension ".md" filename in
     match items data with
     | Raise e => (st, Raise e)
     | Return d => write_out filename (markdown_document d title, None) st
     end).

(** The fixed head and tail of the page [export_to_html] writes. *)
Definition html_head (title : string) : string :=
  "<!DOCTYPE html>" +:+ nl +:+ "<html>" +:+ nl +:+ "<head>" +:+ nl
  +:+ "    <title>" +:+ title +:+ "</title>" +:+ nl
  +:+ "    <style>" +:+ nl
  +:+ "        body { font-family: Arial, sans-serif; line-height: 1.6; margin: 0; padding: 20px; color: #333; }" +:+ nl
  +:+ "        h1 { color: #2c3e50; border-bottom: 1px solid #eee; padding-bottom: 10px; }" +:+ nl
  +:+ "        h2, h3, h4 { color: #2c3e50; margin-top: 20px; }" +:+ nl
  +:+ "        table { border-collapse: collapse; width: 100%; margin-bottom: 20px; }" +:+ nl
  +:+ "        th, td { text-align: left; padding: 12px; }" +:+ nl
  +:+ "        th { background-color: #f2f2f2; }" +:+ nl
  +:+ "        tr:nth-child(even) { background-color: #f9f9f9; }" +:+ nl
  +:+ "        .container { max-width: 1200px; margin: 0 auto; }" +:+ nl
  +:+ "    </style>" +:+ nl +:+ "</head>" +:+ nl +:+ "<body>" +:+ nl
  +:+ "    <div class=" +:+ PyStr.chr PyStr.dquote +:+ "container" +:+ PyStr.chr PyStr.dquote
  +:+ ">" +:+ nl
  +:+ "        <h1>" +:+ title +:+ "</h1>" +:+ nl.

Definition html_tail : string :=
  "    </div>" +:+ nl +:+ "</body>" +:+ nl +:+ "</html>" +:+ nl.

Definition html_document (data : list (string * Value)) (title : string) : string :=
  html_head title +:+ dict_to_html data 1 +:+ html_tail.

(** [export_to_html(data, filename, title)] *)
Definition export_to_html (data : Value) (filename : string) (title : string)
    (st : fsys) : fsys * result string :=
  guarded "HTML"
    (let filename := with_extension ".html" filename in
     match items data with
     | Raise e => (st, Raise e)
     | Return d => write_out filename (html_document d title, None) st
     end).

(** [export_to_yaml(data, filename)] *)
Definition export_to_yaml (data : Value) (filename : string) (st : fsys)
    : fsys * result string :=
  guarded "YAML"
    (let filename := with_extension2 ".yaml" ".yml" filename in
     write_out filename (yaml_dump data) st).

(** The tail of the two [pandas] codecs: the library wrote (or failed),
    then [os.path.abspath(filename)] is returned. *)
Definition library_out (filename : string) (out : fsys * option exn) : fsys * result string :=
  match snd out with
  | Some e => (fst out, Raise e)
  | None => (fst out, Return (abspath (fst out) filename))
  end.

(** [export_to_excel(data, filename, sheet_name)] *)
Definition export_to_excel (data : list (list (string * Value))) (filename : string)
    (sheet_name : string) (st : fsys) : fsys * result string :=
  guarded "Excel"
    (let filename := with_extension ".xlsx" filename in
     library_out filename (excel_workbook data filename sheet_name st)).

(** [export_to_sqlite(data, filename, table_name)] *)
Definition export_to_sqlite (data : list (list (string * Value))) (filename : string)
    (table_name : string) (st : fsys) : fsys * result string :=
  guarded "SQLite"
    (let filename := with_extension ".db" filename in
     library_out filename (sqlite_table data filename table_name st)).

(** [export_to_pickle(data, filename)] *)
Definition export_to_pickle (data : Value) (filename : string) (st : fsys)
    : fsys * result string :=
  guarded "pickle"
    (let filename := with_extension2 ".pkl" ".pickle" filename in
     write_out filename (pickle_dump data) st).

(** [get_supported_formats()] *)
Definition get_supported_formats : list string :=
  ["csv"; "json"; "xml"; "markdown"; "html"; "yaml"; "excel"; "sqlite"; "pickle"].

End Codecs.

(** ** The dispatcher: [export_data] *)

Section Dispatcher.
Context {libs : Libraries}.

(** Lines 531-539: the format token the dispatcher goes on with.  A
    given [format] is taken as it is; otherwise the extension of
    [filename], lowered and without its dot; otherwise the configured
    default. *)
Definition resolve_format (config : AppConfig) (filename : string)
    (format : option string) : string :=
  match format with
  | Some format => format
  | None =>
      let '(_, ext) := OsPath.splitext filename in
      if decide (ext ≠ "") then PyStr.lstrip "." (PyStr.lower ext)
      else default_format (export config)
  end.

(** Lines 541-546: a relative [filename] goes under the configured
    output directory, which is created first.  This runs before the
    [try], so what [os.makedirs] raises leaves [export_data] as it
    is. *)
Definition ensure_output_dir (config : AppConfig) (filename : string) (st : fsys)
    : fsys * result string :=
  let output_dir := output_dir (export config) in
  if bool_decide (output_dir ≠ "") && negb (OsPath.isabs filename) then
    let '(st', r) := makedirs output_dir st in
    match r with
    | Raise e => (st', Raise e)
    | Return _ => (st', Return (OsPath.join output_dir filename))
    end
  else (st, Return filename).

(** [isinstance(data, list) and all(isinstance(item, dict) for item in data)] *)
Definition is_list_of_dicts (data : Value) : bool :=
  match data with
  | VList l => forallb is_dict l
  | _ => false
  end.

(** The records of a value that passed [is_list_of_dicts]. *)
Definition records_of (data : Value) : list (list (string * Value)) :=
  match data with
  | VList l => map entries_of l
  | _ => []
  end.

(** [raise ExportError(msg)] of a shape test or of the last [else]. *)
Definition export_error (msg : string) : exn := Exn ExportError msg None.

(** Lines 550-596: the [if]/[elif] chain inside the [try]. *)
Definition dispatch (format : string) (data : Value) (filename : string) (st : fsys)
    : fsys * result string :=
  if bool_decide (format ∈ ["csv"]) then
    if negb (is_list_of_dicts data)
    then (st, Raise (export_error "CSV export requires a list of dictionaries"))
    else export_to_csv (records_of data) filename None st
  else if bool_decide (format ∈ ["json"]) then
    export_to_json data filename true st
  else if bool_decide (format ∈ ["xml"]) then
    if negb (is_dict data)
    then (st, Raise (export_error "XML export requires a dictionary"))
    else export_to_xml data filename "data" st
  else if bool_decide (format ∈ ["md"; "markdown"]) then
    if negb (is_dict data)
    then (st, Raise (export_error "Markdown export requires a dictionary"))
    else export_to_markdown data filename "Exported Data" st
  else if bool_decide (format ∈ ["html"]) then
    if negb (is_dict data)
    then (st, Raise (export_error "HTML export requires a dictionary"))
    else export_to_html data filename "Exported Data" st
  else if bool_decide (format ∈ ["yaml"; "yml"]) then
    export_to_yaml data filename st
  else if bool_decide (format ∈ ["xlsx"; "excel"]) then
    if negb (is_list_of_dicts data)
    then (st, Raise (export_error "Excel export requires a list of dictionaries"))
    else export_to_excel (records_of data) filename "Data" st
  else if bool_decide (format ∈ ["db"; "sqlite"]) then
    if negb (is_list_of_dicts data)
    then (st, Raise (export_error "SQLite export requires a list of dictionaries"))
    else export_to_sqlite (records_of data) filename "data" st
  else if bool_decide (format ∈ ["pkl"; "pickle"]) then
    export_to_pickle data filename st
  else (st, Raise (export_error ("Unsupported export format: " +:+ format))).

(** Lines 598-604: [except ExportError: raise] lets an [ExportError]
    through; any other exception is wrapped with the format in the
    message. *)
Definition reraise (format : string) (r : result string) : result string :=
  match r with
  | Return path => Return path
  | Raise e =>
      if is_export_error e then Raise e
      else Raise (Exn ExportError
                    ("Failed to export data to " +:+ format +:+ ": " +:+ exn_msg e)
                    (Some e))
  end.

(** [export_data(data, filename, format)] under the configuration
    [config] that [get_config()] returns. *)
Definition export_data (config : AppConfig) (data : Value) (filename : string)
    (format : option string) (st : fsys) : fsys * result string :=
  let format := resolve_format config filename format in
  let '(st1, r) := ensure_output_dir config filename st in
  match r with
  | Raise e => (st1, Raise e)
  | Return filename =>
      let '(st2, r) := dispatch format data filename st1 in
      (st2, reraise format r)
  end.

End Dispatcher.

(** ** A concrete set of libraries and a concrete machine

    For running the engine on examples: dumps that write a fixed marker
    text and never raise, and writers that create the target file. *)

Definition demo_libs : Libraries := {|
  json_dump := fun data indent =>
    ((if indent is Some _ then "json-pretty:" else "json:") +:+ py_repr data, None);
  yaml_dump := fun data => ("yaml:" +:+ py_repr data, None);
  pickle_dump := fun data => ("pickle:" +:+ py_repr data, None);
  toprettyxml := fun '(Element tag _ _) => Return ("<" +:+ tag +:+ "/>");
  excel_workbook := fun _ filename _ st => (fst (open_w filename "xlsx" st), None);
  sqlite_table := fun _ filename _ st => (fst (open_w filename "sqlite" st), None)
|}.

(** A machine whose working directory is [/srv/app], with nothing in
    it. *)
Definition empty_machine : fsys :=
  {| cwd := "/srv/app";
     nodes := {[ ["srv"] := Dir; ["srv"; "app"] := Dir ]} |}.

(** The same machine with a regular file where the default output
    directory [./output] would go. *)
Definition blocked_machine : fsys :=
  {| cwd := "/srv/app";
     nodes := {[ ["srv"] := Dir; ["srv"; "app"] := Dir;
                 ["srv"; "app"; "output"] := File "not a directory" ]} |}.

(** ** The notions of the claims

    Definitions that follow the wording of the claims, to be compared
    with the functions above. *)

(** The rule for one item of a sequence, as the claim words it: a
    mapping becomes a nested section one level down, anything else a
    bullet line. *)
Definition md_item (level : nat) (item : Value) : string :=
  match item with
  | VDict d => dict_to_markdown d (S level)
  | _ => "- " +:+ py_str item +:+ nl
  end.

(** The table of a non-empty sequence of mappings, as the claim words
    it: the header row is the key order of the first record, and each
    record gives one row, cell by cell under the headers, empty where the
    record has no such key. *)
Definition html_record_table (first : list (string * Value))
    (records : list (list (string * Value))) : string :=
  "<table>" +:+ nl +:+ "<tr>" +:+ nl
    +:+ PyStr.concat (map (fun header => "<th>" +:+ header +:+ "</th>" +:+ nl)
                          (dict_keys first))
    +:+ "</tr>" +:+ nl
    +:+ PyStr.concat
          (map (fun record =>
                  "<tr>" +:+ nl
                    +:+ PyStr.concat
                          (map (fun header =>
                                  "<td>" +:+ match dict_get record header with
                                             | Some x => py_str x
                                             | None => ""
                                             end +:+ "</td>" +:+ nl)
                               (dict_keys first))
                    +:+ "</tr>" +:+ nl)
               records)
    +:+ "</table>" +:+ nl.

(** The CSV text as the claim words it: the header row, then one row per
    record, its cells taken header by header, empty where the record
    has no such key. *)
Definition csv_cell (record : list (string * Value)) (header : string) : string :=
  match dict_get record header with
  | Some v => Csv.field_text v
  | None => ""
  end.

Definition csv_table (headers : list string) (data : list (list (string * Value))) : string :=
  Csv.writerow headers
    +:+ PyStr.concat (map (fun record => Csv.writerow (map (csv_cell record) headers)) data).

(** The record set of the scenario and a variant without the extra
    key. *)
Definition scenario_records : list (list (string * Value)) :=
  [[("a", VInt 1); ("b", VInt 2)]; [("a", VInt 3); ("c", VInt 4)]].

Definition fitting_records : list (list (string * Value)) :=
  [[("a", VInt 1); ("b", VInt 2)]; [("a", VInt 3)]].

(** [path] names the file [name]: it is [name], or ends with a slash
    followed by [name]. *)
Definition names_file (path name : string) : Prop :=
  path = name \/ exists q, path = q +:+ "/" +:+ name.

(** The spellings the [if]/[elif] chain of [export_data] knows. *)
Definition known_tokens : list string :=
  ["csv"; "json"; "xml"; "md"; "markdown"; "html"; "yaml"; "yml";
   "xlsx"; "excel"; "db"; "sqlite"; "pkl"; "pickle"].

(** The shape test of a format refuses a value: no list of dicts for a
    tabular format (lines 552, 582, 588; that the dicts are flat is not
    tested), no dict for a tree format (lines 561, 567, 573). *)
Definition shape_rejected (format : string) (data : Value) : bool :=
  (bool_decide (format ∈ ["csv"; "xlsx"; "excel"; "db"; "sqlite"])
   && negb (is_list_of_dicts data))
  || (bool_decide (format ∈ ["xml"; "md"; "markdown"; "html"])
      && negb (is_dict data)).

(** ** Further notions

    The tags of an element tree, root first. *)
Fixpoint tags (e : element) : list string :=
  match e with
  | Element tag _ children =>
      tag :: (fix go (l : list element) : list string :=
                match l with
                | [] => []
                | child :: l' => tags child ++ go l'
                end) children
  end.

(** A name that [element_name] would leave as it is. *)
Definition is_element_name (s : string) : Prop :=
  s <> "" /\ forall c, PyStr.contains c s = true ->
                       PyStr.isalnum c || bool_decide (c = "_"%char) = true.

(** How deep a value nests: a scalar is 0, a container one more than
    its deepest member. *)
Fixpoint depth (v : Value) : nat :=
  match v with
  | VList l => S (fold_right (fun x n => Nat.max (depth x) n) 0%nat l)
  | VDict d => S (fold_right (fun '(_, x) n => Nat.max (depth x) n) 0%nat d)
  | _ => 0%nat
  end.

(** ** [str.title()] and truth values *)

(** [c.upper()] on one character: only [a]..[z] change. *)
Definition upper_char (c : ascii) : ascii :=
  let n := nat_of_ascii c in
  if ((97 <=? n) && (n <=? 122))%nat then ascii_of_nat (n - 32) else c.

Definition is_lower_char (c : ascii) : bool :=
  let n := nat_of_ascii c in ((97 <=? n) && (n <=? 122))%nat.

Definition is_upper_char (c : ascii) : bool :=
  let n := nat_of_ascii c in ((65 <=? n) && (n <=? 90))%nat.

(** The loop of [str.title()], with its flag [previous_is_cased]: a
    letter after a letter is lowered, a letter after anything else is
    raised. *)
Fixpoint title_from (previous_is_cased : bool) (s : string) : string :=
  match s with
  | "" => ""
  | String c s' =>
      if is_lower_char c then
        String (if previous_is_cased then c else upper_char c) (title_from true s')
      else if is_upper_char c then
        String (if previous_is_cased then PyStr.lower_char c else c) (title_from true s')
      else String c (title_from false s')
  end.

(** [s.title()] *)
Definition title_case (s : string) : string := title_from false s.

(** [bool(v)], the test behind [if not v]. *)
Definition truthy (v : Value) : bool :=
  match v with
  | VNone => false
  | VBool b => b
  | VInt n => negb (n =? 0)
  | VFloat r => negb (bool_decide (r = "0.0" \/ r = "-0.0"))
  | VStr s => negb (bool_decide (s = ""))
  | VList l => negb (bool_decide (l = []))
  | VDict d => negb (bool_decide (d = []))
  end.

(** ** [generate_report] of [app.py] *)

Module App.

(** The lines a section gets for its content: one bullet per entry of a
    dict, one per item of a list, one line for anything else. *)
Definition report_content (content : Value) : string :=
  match content with
  | VDict d =>
      PyStr.concat (map (fun '(key, value) =>
                           "- **" +:+ key +:+ "**: " +:+ py_str value +:+ nl) d)
  | VList l => PyStr.concat (map (fun item => "- " +:+ py_str item +:+ nl) l)
  | _ => py_str content +:+ nl
  end.

(** The loop over [data.items()]. *)
Fixpoint report_sections (data : list (string * Value)) : string :=
  match data with
  | [] => ""
  | (section, content) :: data' =>
      "## " +:+ title_case section +:+ nl +:+ nl
        +:+ report_content content +:+ nl +:+ report_sections data'
  end.

(** [generate_report(ctx, title, data)]: no validation, no handler. *)
Definition generate_report (title : string) (data : Value) : result string :=
  match items data with
  | Raise e => Raise e
  | Return d => Return ("# " +:+ title +:+ nl +:+ nl +:+ report_sections d)
  end.

End App.

(** ** The tools of [fixed_app.py] that compute on their arguments *)

Module FixedApp.

(** [isinstance(x, (int, float))]; in Python [bool] is a subclass of
    [int], so a boolean passes. *)
Definition is_numeric (x : Value) : bool :=
  match x with
  | VBool _ | VInt _ | VFloat _ => true
  | _ => false
  end.

(** [isinstance(x, str)] and [isinstance(x, bool)] *)
Definition is_string (x : Value) : bool :=
  match x with VStr _ => true | _ => false end.

Definition is_boolean (x : Value) : bool :=
  match x with VBool _ => true | _ => false end.

(** Lines 271-283 of [validate_data]: the [check_func] for
    [expected_type], or none when the type is unknown. *)
Definition check_func (expected_type : string) : option (Value -> bool) :=
  if decide (expected_type = "numeric") then Some is_numeric
  else if decide (expected_type = "string") then Some is_string
  else if decide (expected_type = "boolean") then Some is_boolean
  else None.

(** The entry appended to [invalid_values] for the item at index [i]. *)
Definition invalid_entry (i : nat) (item : Value) : Value :=
  VDict [("index", VInt (Z.of_nat i)); ("value", VStr (py_str item));
         ("actual_type", VStr (type_name item))].

(** Lines 285-293: the loop over [enumerate(data)], from index [i] on,
    with the counter and the list it updates. *)
Fixpoint scan (check : Value -> bool) (i : nat) (data : list Value)
    (valid_count : nat) (invalid_values : list Value) : nat * list Value :=
  match data with
  | [] => (valid_count, invalid_values)
  | item :: data' =>
      if check item then scan check (S i) data' (S valid_count) invalid_values
      else scan check (S i) data' valid_count (invalid_values ++ [invalid_entry i item])
  end.

(** [validate_data(ctx, data, expected_type)]; nothing in the [try] can
    raise on these values, so the handler of lines 301-308 is not
    reached. *)
Definition validate_data (data : list Value) (expected_type : string) : Value :=
  match data with
  | [] =>
      VDict [("valid", VBool false);
             ("error", VStr "Input data list cannot be empty");
             ("valid_count", VInt 0); ("invalid_count", VInt 0)]
  | _ =>
      match check_func expected_type with
      | None =>
          VDict [("valid", VBool false);
                 ("error", VStr ("Unknown expected_type: " +:+ expected_type));
                 ("valid_count", VInt 0);
                 ("invalid_count", VInt (Z.of_nat (length data)))]
      | Some check =>
          let '(valid_count, invalid_values) := scan check 0 data 0 [] in
          VDict [("valid", VBool (Nat.eqb valid_count (length data)));
                 ("valid_count", VInt (Z.of_nat valid_count));
                 ("invalid_count", VInt (Z.of_nat (length data) - Z.of_nat valid_count));
                 ("invalid_values", VList (take 10 invalid_values))]
      end
  end.

(** The exceptions of the tools: [DatabaseConnectionError],
    [AnalysisError], [ReportGenerationError], with message and cause. *)
Inductive tool_error_class : Type :=
| DatabaseConnectionError
| AnalysisError
| ReportGenerationError.

Inductive tool_error : Type :=
| ToolError (cls : tool_error_class) (msg : string) (cause : option exn).

Inductive tool_result (A : Type) : Type :=
| Done (a : A)
| Failed (e : tool_error).
Arguments Done {A} a.
Arguments Failed {A} e.

(** [generate_report(ctx, title, data)]: the two tests on the inputs,
    then the loop of [app.py] inside a [try] that wraps what is not a
    [ReportGenerationError] already. *)
Definition generate_report (title : string) (data : Value) : tool_result string :=
  if decide (title = "") then
    Failed (ToolError ReportGenerationError "Report title cannot be empty" None)
  else if negb (truthy data) then
    Failed (ToolError ReportGenerationError "Report data cannot be empty" None)
  else
    match items data with
    | Raise e =>
        Failed (ToolError ReportGenerationError
                  ("Report generation failed: " +:+ exn_msg e) (Some e))
    | Return d =>
        Done ("# " +:+ title +:+ nl +:+ nl +:+ App.report_sections d)
    end.

(** [analyze_data(ctx, data)].  The five statistics are computed by
    [pandas] on floating-point numbers (lines 168-175); they are taken
    as given: [pandas_stats] yields mean, median, standard deviation,
    minimum and maximum, or what [pandas] raises. *)
Definition analyze_data
    (pandas_stats : list Value -> result (Value * Value * Value * Value * Value))
    (data : list Value) : tool_result Value :=
  match data with
  | [] => Failed (ToolError AnalysisError "Input data list cannot be empty" None)
  | _ =>
      if negb (forallb is_numeric data) then
        Failed (ToolError AnalysisError "All elements in data must be numeric" None)
      else
        match pandas_stats data with
        | Raise e =>
            Failed (ToolError AnalysisError
                      ("Data analysis failed: " +:+ exn_msg e) (Some e))
        | Return (mean, median, std_dev, minimum, maximum) =>
            Done (VDict [("mean", mean); ("median", median); ("std_dev", std_dev);
                         ("min", minimum); ("max", maximum);
                         ("count", VInt (Z.of_nat (length data)))])
        end
  end.

End FixedApp.

(** The items that fail a check, each with its index in the list, from
    index [i] on. *)
Fixpoint failures (check : Value -> bool) (i : nat) (data : list Value)
    : list (nat * Value) :=
  match data with
  | [] => []
  | item :: data' =>
      if check item then failures check (S i) data'
      else (i, item) :: failures check (S i) data'
  end.

(** ** [config.py]: the configuration dataclasses *)

Module Config.

(** What building a configuration gives: the object, or the [TypeError]
    a dataclass constructor raises on its keyword arguments. *)
Inductive built (A : Type) : Type :=
| Built (a : A)
| TypeError (msg : string).
Arguments Built {A} a.
Arguments TypeError {A} msg.

(** The five dataclasses.  Python does not check the annotated types, so
    a field holds whatever value it was given. *)
Record ServerConfig : Type :=
  { host : Value; port : Value; debug : Value; log_level : Value }.

Record DatabaseConfig : Type :=
  { use_mock : Value; connection_timeout : Value; max_retries : Value }.

Record AnalysisConfig : Type :=
  { default_precision : Value; max_data_points : Value }.

Record ExportConfig : Type :=
  { output_dir : Value; default_format : Value; max_file_size_mb : Value }.

Record SecurityConfig : Type :=
  { enable_authentication : Value; api_key_required : Value }.

Record AppConfig : Type :=
  { server : ServerConfig; database : DatabaseConfig; analysis : AnalysisConfig;
    export : ExportConfig; security : SecurityConfig }.

(** The defaults of the fields: [ServerConfig()], and so on. *)
Definition ServerConfig_default : ServerConfig :=
  {| host := VStr "0.0.0.0"; port := VInt 8765; debug := VBool false;
     log_level := VStr "INFO" |}.

Definition DatabaseConfig_default : DatabaseConfig :=
  {| use_mock := VBool true; connection_timeout := VFloat "5.0"; max_retries := VInt 3 |}.

Definition AnalysisConfig_default : AnalysisConfig :=
  {| default_precision := VInt 2; max_data_points := VInt 10000 |}.

Definition ExportConfig_default : ExportConfig :=
  {| output_dir := VStr "./output"; default_format := VStr "json";
     max_file_size_mb := VInt 100 |}.

Definition SecurityConfig_default : SecurityConfig :=
  {| enable_authentication := VBool false; api_key_required := VBool false |}.

(** [AppConfig()] *)
Definition AppConfig_default : AppConfig :=
  {| server := ServerConfig_default; database := DatabaseConfig_default;
     analysis := AnalysisConfig_default; export := ExportConfig_default;
     security := SecurityConfig_default |}.

(** One keyword argument of a constructor: the field it sets, or none
    when the class has no such field. *)
Definition ServerConfig_set (c : ServerConfig) (k : string) (v : Value)
    : option ServerConfig :=
  if decide (k = "host") then
    Some {| host := v; port := port c; debug := debug c; log_level := log_level c |}
  else if decide (k = "port") then
    Some {| host := host c; port := v; debug := debug c; log_level := log_level c |}
  else if decide (k = "debug") then
    Some {| host := host c; port := port c; debug := v; log_level := log_level c |}
  else if decide (k = "log_level") then
    Some {| host := host c; port := port c; debug := debug c; log_level := v |}
  else None.

Definition DatabaseConfig_set (c : DatabaseConfig) (k : string) (v : Value)
    : option DatabaseConfig :=
  if decide (k = "use_mock") then
    Some {| use_mock := v; connection_timeout := connection_timeout c;
            max_retries := max_retries c |}
  else if decide (k = "connection_timeout") then
    Some {| use_mock := use_mock c; connection_timeout := v;
            max_retries := max_retries c |}
  else if decide (k = "max_retries") then
    Some {| use_mock := use_mock c; connection_timeout := connection_timeout c;
            max_retries := v |}
  else None.

Definition AnalysisConfig_set (c : AnalysisConfig) (k : string) (v : Value)
    : option AnalysisConfig :=
  if decide (k = "default_precision") then
    Some {| default_precision := v; max_data_points := max_data_points c |}
  else if decide (k = "max_data_points") then
    Some {| default_precision := default_precision c; max_data_points := v |}
  else None.

Definition ExportConfig_set (c : ExportConfig) (k : string) (v : Value)
    : option ExportConfig :=
  if decide (k = "output_dir") then
    Some {| output_dir := v; default_format := default_format c;
            max_file_size_mb := max_file_size_mb c |}
  else if decide (k = "default_format") then
    Some {| output_dir := output_dir c; default_format := v;
            max_file_size_mb := max_file_size_mb c |}
  else if decide (k = "max_file_size_mb") then
    Some {| output_dir := output_dir c; default_format := default_format c;
            max_file_size_mb := v |}
  else None.

Definition SecurityConfig_set (c : SecurityConfig) (k : string) (v : Value)
    : option SecurityConfig :=
  if decide (k = "enable_authentication") then
    Some {| enable_authentication := v; api_key_required := api_key_required c |}
  else if decide (k = "api_key_required") then
    Some {| enable_authentication := enable_authentication c; api_key_required := v |}
  else None.

(** The constructor called with keyword arguments: every keyword must be
    a field; the fields not named
    keep their defaults. *)
Fixpoint init_kwargs {R : Type} (set : R -> string -> Value -> option R) (cls : string)
    (c : R) (kwargs : list (string * Value)) : built R :=
  match kwargs with
  | [] => Built c
  | (k, v) :: kwargs' =>
      match set c k v with
      | Some c' => init_kwargs set cls c' kwargs'
      | None =>
          TypeError (cls +:+ ".__init__() got an unexpected keyword argument "
                         +:+ PyStr.repr k)
      end
  end.

(** The constructor called with a section unpacked as its keyword
    arguments, for whatever the section is. *)
Definition construct {R : Type} (set : R -> string -> Value -> option R) (cls : string)
    (default : R) (section : Value) : built R :=
  match section with
  | VDict kwargs => init_kwargs set cls default kwargs
  | _ =>
      TypeError (cls +:+ "() argument after ** must be a mapping, not "
                     +:+ type_name section)
  end.

(** [dataclasses.asdict] of each class. *)
Definition ServerConfig_asdict (c : ServerConfig) : Value :=
  VDict [("host", host c); ("port", port c); ("debug", debug c);
         ("log_level", log_level c)].

Definition DatabaseConfig_asdict (c : DatabaseConfig) : Value :=
  VDict [("use_mock", use_mock c); ("connection_timeout", connection_timeout c);
         ("max_retries", max_retries c)].

Definition AnalysisConfig_asdict (c : AnalysisConfig) : Value :=
  VDict [("default_precision", default_precision c);
         ("max_data_points", max_data_points c)].

Definition ExportConfig_asdict (c : ExportConfig) : Value :=
  VDict [("output_dir", output_dir c); ("default_format", default_format c);
         ("max_file_size_mb", max_file_size_mb c)].

Definition SecurityConfig_asdict (c : SecurityConfig) : Value :=
  VDict [("enable_authentication", enable_authentication c);
         ("api_key_required", api_key_required c)].

(** One [if name in config_dict: result.name = ...] step
    of [from_dict]. *)
Definition section_of {R : Type} (config_dict : list (string * Value)) (name : string)
    (set : R -> string -> Value -> option R) (cls : string) (default : R) : built R :=
  match dict_get config_dict name with
  | None => Built default
  | Some section => construct set cls default section
  end.

(** [AppConfig.from_dict(config_dict)]: the five sections in turn; the
    first constructor that raises ends it. *)
Definition from_dict (config_dict : list (string * Value)) : built AppConfig :=
  match section_of config_dict "server" ServerConfig_set "ServerConfig"
          ServerConfig_default with
  | TypeError m => TypeError m
  | Built s =>
  match section_of config_dict "database" DatabaseConfig_set "DatabaseConfig"
          DatabaseConfig_default with
  | TypeError m => TypeError m
  | Built d =>
  match section_of config_dict "analysis" AnalysisConfig_set "AnalysisConfig"
          AnalysisConfig_default with
  | TypeError m => TypeError m
  | Built a =>
  match section_of config_dict "export" ExportConfig_set "ExportConfig"
          ExportConfig_default with
  | TypeError m => TypeError m
  | Built e =>
  match section_of config_dict "security" SecurityConfig_set "SecurityConfig"
          SecurityConfig_default with
  | TypeError m => TypeError m
  | Built y =>
      Built {| server := s; database := d; analysis := a; export := e; security := y |}
  end end end end end.

(** [AppConfig.to_dict(self)] *)
Definition to_dict (c : AppConfig) : list (string * Value) :=
  [("server", ServerConfig_asdict (server c));
   ("database", DatabaseConfig_asdict (database c));
   ("analysis", AnalysisConfig_asdict (analysis c));
   ("export", ExportConfig_asdict (export c));
   ("security", SecurityConfig_asdict (security c))].

(** [d[k] = v] on a dict: the entry keeps its place when the key is
    there, and is added last when it is not. *)
Fixpoint dict_set (d : list (string * Value)) (k : string) (v : Value)
    : list (string * Value) :=
  match d with
  | [] => [(k, v)]
  | (k', v') :: d' =>
      if decide (k' = k) then (k, v) :: d' else (k', v') :: dict_set d' k v
  end.

(** [{ **a, **b }] *)
Definition dict_merge (a b : list (string * Value)) : list (string * Value) :=
  fold_left (fun acc kv => dict_set acc (fst kv) (snd kv)) b a.

(** [DEFAULT_CONFIG], lines 24-49. *)
Definition DEFAULT_CONFIG : list (string * Value) :=
  [("server", VDict [("host", VStr "0.0.0.0"); ("port", VInt 8765);
                     ("debug", VBool false); ("log_level", VStr "INFO")]);
   ("database", VDict [("use_mock", VBool true); ("connection_timeout", VFloat "5.0");
                       ("max_retries", VInt 3)]);
   ("analysis", VDict [("default_precision", VInt 2); ("max_data_points", VInt 10000)]);
   ("export", VDict [("output_dir", VStr "./output"); ("default_format", VStr "json");
                     ("max_file_size_mb", VInt 100)]);
   ("security", VDict [("enable_authentication", VBool false);
                       ("api_key_required", VBool false)])].

(** [ConfigManager.update_config(config_update)] on the current
    configuration: the new value of [self.config], or the error that
    leaves it as it was. *)
Definition update_config (current : AppConfig) (config_update : list (string * Value))
    : built AppConfig :=
  match from_dict config_update with
  | TypeError m => TypeError m
  | Built updated_config => from_dict (dict_merge (to_dict current) (to_dict updated_config))
  end.

(** *** [ConfigManager.load_from_env] *)

(** [obj.k = v] for a field [k] of the object. *)
Definition assign {R : Type} (set : R -> string -> Value -> option R) (k : string)
    (v : Value) (c : R) : R :=
  match set c k v with
  | Some c' => c'
  | None => c
  end.

Definition on_server (f : ServerConfig -> ServerConfig) (c : AppConfig) : AppConfig :=
  {| server := f (server c); database := database c; analysis := analysis c;
     export := export c; security := security c |}.

Definition on_database (f : DatabaseConfig -> DatabaseConfig) (c : AppConfig) : AppConfig :=
  {| server := server c; database := f (database c); analysis := analysis c;
     export := export c; security := security c |}.

Definition on_analysis (f : AnalysisConfig -> AnalysisConfig) (c : AppConfig) : AppConfig :=
  {| server := server c; database := database c; analysis := f (analysis c);
     export := export c; security := security c |}.

Definition on_export (f : ExportConfig -> ExportConfig) (c : AppConfig) : AppConfig :=
  {| server := server c; database := database c; analysis := analysis c;
     export := f (export c); security := security c |}.

Definition on_security (f : SecurityConfig -> SecurityConfig) (c : AppConfig) : AppConfig :=
  {| server := server c; database := database c; analysis := analysis c;
     export := export c; security := f (security c) |}.

(** One [if NAME in os.environ: self.config.section.field = conv(os.environ[NAME])]:
    the variable, its conversion (none when it raises) and the assignment. *)
Record setting : Type :=
  { variable : string;
    convert : string -> option Value;
    store : Value -> AppConfig -> AppConfig }.

Section Environment.

(** [int(text)] and [float(text)] of the interpreter: the number read, or
    none for the [ValueError]; a float is carried as its [repr]. *)
Variable int_of : string -> option Z.
Variable float_of : string -> option string.

Definition as_str (text : string) : option Value := Some (VStr text).

Definition as_int (text : string) : option Value :=
  match int_of text with
  | Some n => Some (VInt n)
  | None => None
  end.

Definition as_float (text : string) : option Value :=
  match float_of text with
  | Some r => Some (VFloat r)
  | None => None
  end.

(** [text.lower() in ("true", "1", "yes")] *)
Definition as_flag (text : string) : option Value :=
  Some (VBool (bool_decide (PyStr.lower text ∈ ["true"; "1"; "yes"]))).

(** The settings of [load_from_env], in the order of the source. *)
Definition env_settings : list setting :=
  [ {| variable := "MCP_SERVER_HOST"; convert := as_str;
       store := fun v => on_server (assign ServerConfig_set "host" v) |};
    {| variable := "MCP_SERVER_PORT"; convert := as_int;
       store := fun v => on_server (assign ServerConfig_set "port" v) |};
    {| variable := "MCP_SERVER_DEBUG"; convert := as_flag;
       store := fun v => on_server (assign ServerConfig_set "debug" v) |};
    {| variable := "MCP_LOG_LEVEL"; convert := as_str;
       store := fun v => on_server (assign ServerConfig_set "log_level" v) |};
    {| variable := "MCP_DB_USE_MOCK"; convert := as_flag;
       store := fun v => on_database (assign DatabaseConfig_set "use_mock" v) |};
    {| variable := "MCP_DB_TIMEOUT"; convert := as_float;
       store := fun v => on_database (assign DatabaseConfig_set "connection_timeout" v) |};
    {| variable := "MCP_DB_MAX_RETRIES"; convert := as_int;
       store := fun v => on_database (assign DatabaseConfig_set "max_retries" v) |};
    {| variable := "MCP_ANALYSIS_PRECISION"; convert := as_int;
       store := fun v => on_analysis (assign AnalysisConfig_set "default_precision" v) |};
    {| variable := "MCP_ANALYSIS_MAX_POINTS"; convert := as_int;
       store := fun v => on_analysis (assign AnalysisConfig_set "max_data_points" v) |};
    {| variable := "MCP_EXPORT_DIR"; convert := as_str;
       store := fun v => on_export (assign ExportConfig_set "output_dir" v) |};
    {| variable := "MCP_EXPORT_FORMAT"; convert := as_str;
       store := fun v => on_export (assign ExportConfig_set "default_format" v) |};
    {| variable := "MCP_EXPORT_MAX_SIZE"; convert := as_int;
       store := fun v => on_export (assign ExportConfig_set "max_file_size_mb" v) |};
    {| variable := "MCP_SECURITY_AUTH"; convert := as_flag;
       store := fun v => on_security (assign SecurityConfig_set "enable_authentication" v) |};
    {| variable := "MCP_SECURITY_API_KEY"; convert := as_flag;
       store := fun v => on_security (assign SecurityConfig_set "api_key_required" v) |} ].

(** The body of the [try]: the settings in turn on the configuration
    object, which is changed in place; a conversion that raises ends it,
    and the [except] only logs, so what was stored before stays. *)
Fixpoint apply_settings (settings : list setting) (environ : gmap string string)
    (c : AppConfig) : AppConfig :=
  match settings with
  | [] => c
  | s :: settings' =>
      match environ !! variable s with
      | None => apply_settings settings' environ c
      | Some text =>
          match convert s text with
          | Some v => apply_settings settings' environ (store s v c)
          | None => c
          end
      end
  end.

(** [ConfigManager.load_from_env(self)]: the configuration after it. *)
Definition load_from_env (environ : gmap string string) (c : AppConfig) : AppConfig :=
  apply_settings env_settings environ c.

(** [ConfigManager()]: the defaults, then the environment. *)
Definition ConfigManager_init (environ : gmap string string) : built AppConfig :=
  match from_dict DEFAULT_CONFIG with
  | TypeError m => TypeError m
  | Built c => Built (load_from_env environ c)
  end.

End Environment.

End Config.

(** ** Notions for the properties of [config.py] *)

(** The sections [AppConfig.from_dict] reads, each with the fields its
    dataclass declares. *)
Definition config_sections : list (string * list string) :=
  [("server", ["host"; "port"; "debug"; "log_level"]);
   ("database", ["use_mock"; "connection_timeout"; "max_retries"]);
   ("analysis", ["default_precision"; "max_data_points"]);
   ("export", ["output_dir"; "default_format"; "max_file_size_mb"]);
   ("security", ["enable_authentication"; "api_key_required"])].

(** A section is a mapping and names only fields of its class. *)
Definition accepted_section (fields : list string) (section : Value) : bool :=
  match section with
  | VDict kwargs => forallb (fun k => bool_decide (k ∈ fields)) (map fst kwargs)
  | _ => false
  end.

(** Every section the dictionary has is accepted. *)
Definition accepted_config (config_dict : list (string * Value)) : bool :=
  forallb (fun sec =>
             match dict_get config_dict (fst sec) with
             | None => true
             | Some section => accepted_section (snd sec) section
             end) config_sections.

(** A reading of plain decimal numerals, standing for [int] in the
    examples. *)
Definition decimal_digit (c : ascii) : option Z :=
  let n := Z.of_nat (nat_of_ascii c) in
  if bool_decide (48 <= n <= 57)%Z then Some (n - 48)%Z else None.

Fixpoint decimal_from (acc : Z) (text : string) : option Z :=
  match text with
  | EmptyString => Some acc
  | String c text' =>
      match decimal_digit c with
      | Some d => decimal_from (10 * acc + d)%Z text'
      | None => None
      end
  end.

Definition decimal (text : string) : option Z :=
  match text with
  | EmptyString => None
  | _ => decimal_from 0%Z text
  end.

(** * Properties *)

(** ** Runs of the definitions on small inputs *)

Example lower_mixed : PyStr.lower "Out.JSON" = "out.json".
Proof. reflexivity. Qed.

Example endswith_json : PyStr.endswith "out.json" ".json" = true.
Proof. reflexivity. Qed.

Example split_path : PyStr.split "/" "/a//b" = [""; "a"; ""; "b"].
Proof. reflexivity. Qed.

Example repr_plain : PyStr.repr "a'b" = String PyStr.dquote ("a'b" +:+ PyStr.chr PyStr.dquote).
Proof. reflexivity. Qed.

Example of_Z_neg : PyStr.of_Z (-12) = "-12".
Proof. reflexivity. Qed.

Example py_str_nested :
  py_str (VList [VInt 1; VStr "a"; VDict [("k", VNone)]]) = "[1, 'a', {'k': None}]".
Proof. reflexivity. Qed.

Example markdown_report :
  markdown_document [("summary", VStr "ok"); ("items", VList [VStr "a"; VStr "b"])] "Report"
  = "# Report" +:+ nl +:+ nl +:+ "## summary" +:+ nl +:+ nl +:+ "ok" +:+ nl +:+ nl
      +:+ "## items" +:+ nl +:+ nl +:+ "- a" +:+ nl +:+ "- b" +:+ nl +:+ nl.
Proof. reflexivity. Qed.

Example html_small_table :
  dict_to_html [("rows", VList [VDict [("a", VInt 1); ("b", VInt 2)]; VDict [("a", VInt 3)]])] 1
  = "<h2>rows</h2>" +:+ nl +:+ "<table>" +:+ nl +:+ "<tr>" +:+ nl
      +:+ "<th>a</th>" +:+ nl +:+ "<th>b</th>" +:+ nl +:+ "</tr>" +:+ nl
      +:+ "<tr>" +:+ nl +:+ "<td>1</td>" +:+ nl +:+ "<td>2</td>" +:+ nl +:+ "</tr>" +:+ nl
      +:+ "<tr>" +:+ nl +:+ "<td>3</td>" +:+ nl +:+ "<td></td>" +:+ nl +:+ "</tr>" +:+ nl
      +:+ "</table>" +:+ nl.
Proof. reflexivity. Qed.

Example splitext_yaml : OsPath.splitext "x.yaml" = ("x", ".yaml").
Proof. reflexivity. Qed.

Example splitext_hidden : OsPath.splitext "dir.d/.bashrc" = ("dir.d/.bashrc", "").
Proof. reflexivity. Qed.

Example splitext_none : OsPath.splitext "out" = ("out", "").
Proof. reflexivity. Qed.

Example abspath_rel :
  OsPath.abspath "/srv/app" "./output/x.yaml.json" = "/srv/app/output/x.yaml.json".
Proof. reflexivity. Qed.

Example normpath_dots : OsPath.normpath "/a/./b/../c//d" = "/a/c/d".
Proof. reflexivity. Qed.

Example element_name_spaces : element_name "user name!" = "username".
Proof. reflexivity. Qed.

Example element_name_punct : element_name "!!!" = "item".
Proof. reflexivity. Qed.

(** ** Strings *)

Module StrFacts.
Import PyStr.

Lemma app_cons a s t : String a s +:+ t = String a (s +:+ t).
Proof. reflexivity. Qed.

Lemma app_nil_l s : "" +:+ s = s.
Proof. reflexivity. Qed.

Lemma app_nil_r s : s +:+ "" = s.
Proof. induction s as [|a s IH]; [done|]. by rewrite app_cons, IH. Qed.

Lemma app_assoc s t u : (s +:+ t) +:+ u = s +:+ (t +:+ u).
Proof. induction s as [|a s IH]; [done|]. by rewrite !app_cons, IH. Qed.

Lemma app_length s t : String.length (s +:+ t) = (String.length s + String.length t)%nat.
Proof. induction s as [|a s IH]; [done|]. rewrite app_cons. simpl. by rewrite IH. Qed.

Lemma app_eq_nil s t : s +:+ t = "" -> s = "" /\ t = "".
Proof. destruct s; [done|]. rewrite app_cons. discriminate. Qed.

(** [concat] and [map] over an appended list: rendering keeps the order
    of the items. *)
Lemma concat_app l1 l2 : concat (l1 ++ l2) = concat l1 +:+ concat l2.
Proof.
  induction l1 as [|s l1 IH]; [done|].
  simpl. by rewrite IH, app_assoc.
Qed.

(** *** [lower] *)

Lemma lower_app s t : lower (s +:+ t) = lower s +:+ lower t.
Proof.
  induction s as [|a s IH]; [done|].
  rewrite app_cons. simpl. by rewrite IH.
Qed.

Lemma lower_char_idemp a : lower_char (lower_char a) = lower_char a.
Proof. by destruct a as [[][][][][][][][]]. Qed.

Lemma lower_idemp s : lower (lower s) = lower s.
Proof. induction s as [|a s IH]; [done|]. simpl. by rewrite lower_char_idemp, IH. Qed.

Lemma lower_eq_nil s : lower s = "" <-> s = "".
Proof. by destruct s. Qed.

(** The separators of paths are no letters: [lower] neither makes nor
    removes one. *)
Lemma lower_char_slash a : lower_char a = "/"%char <-> a = "/"%char.
Proof. by destruct a as [[][][][][][][][]]. Qed.

Lemma lower_char_dot a : lower_char a = "."%char <-> a = "."%char.
Proof. by destruct a as [[][][][][][][][]]. Qed.

(** *** [endswith] *)

Lemma endswith_refl s : endswith s s = true.
Proof. destruct s; simpl; [done|]. by case_decide. Qed.

Lemma endswith_spec s suf : endswith s suf = true <-> exists q, s = q +:+ suf.
Proof.
  split.
  - induction s as [|a s IH]; simpl.
    + case_decide as E; [|done]. intros _. exists "". by rewrite <- E.
    + case_decide as E.
      * intros _. exists "". by rewrite <- E.
      * intros [q ->]%IH. by exists (String a q).
  - intros [q ->]. induction q as [|a q IH].
    + apply endswith_refl.
    + rewrite app_cons. simpl. case_decide; [done|]. apply IH.
Qed.

Lemma endswith_app s suf : endswith (s +:+ suf) suf = true.
Proof. apply endswith_spec. by exists s. Qed.

Lemma endswith_length s suf :
  endswith s suf = true -> (String.length suf <= String.length s)%nat.
Proof. intros [q ->]%endswith_spec. rewrite app_length. lia. Qed.

Lemma endswith_trans s t u :
  endswith s t = true -> endswith t u = true -> endswith s u = true.
Proof.
  intros [q ->]%endswith_spec [r ->]%endswith_spec.
  apply endswith_spec. exists (q +:+ r). by rewrite app_assoc.
Qed.

End StrFacts.

(** ** Markdown rendering of sequences *)

(** The recursive call on a dict is [dict_to_markdown] one level down. *)
Lemma md_of_value_dict d level :
  md_of_value (VDict d) level = dict_to_markdown d (S level).
Proof.
  induction d as [|[key x] d IH]; [done|].
  simpl in *. by rewrite IH.
Qed.

Lemma md_of_value_list l level :
  md_of_value (VList l) level = PyStr.concat (map (md_item level) l) +:+ nl.
Proof.
  simpl. f_equal.
  induction l as [|item l IH]; [done|].
  simpl. rewrite IH. f_equal.
  destruct item; try reflexivity.
  apply md_of_value_dict.
Qed.

(** Splitting a sequence splits its rendering: the items keep their
    order and do not influence one another. *)
Lemma md_of_value_list_split l1 item l2 level :
  md_of_value (VList (l1 ++ item :: l2)) level
  = PyStr.concat (map (md_item level) l1)
      +:+ md_item level item
      +:+ PyStr.concat (map (md_item level) l2) +:+ nl.
Proof.
  rewrite md_of_value_list, map_app, StrFacts.concat_app. simpl.
  by rewrite !StrFacts.app_assoc.
Qed.

(** C9: in Markdown a sequence is rendered item by item: under the
    heading of its key, each mapping item is rendered by
    [dict_to_markdown] at the next level and each other item as a
    bullet line ["- item"], in the order of the sequence, whatever the
    mix; one empty line closes the sequence. *)
Theorem C9_markdown_sequence_per_item (key : string) (l : list Value)
    (data : list (string * Value)) (level : nat) :
  dict_to_markdown ((key, VList l) :: data) level
  = md_heading level key
      +:+ (PyStr.concat (map (md_item level) l) +:+ nl)
      +:+ dict_to_markdown data level.
Proof.
  change (dict_to_markdown ((key, VList l) :: data) level)
    with (md_heading level key +:+ md_of_value (VList l) level
            +:+ dict_to_markdown data level).
  by rewrite md_of_value_list.
Qed.

(** ** HTML rendering of sequences *)

Lemma forallb_is_dict_records (records : list (list (string * Value))) :
  forallb is_dict (map VDict records) = true.
Proof. induction records as [|r records IH]; [done|]. simpl. apply IH. Qed.

Lemma forallb_is_dict_false (l : list Value) (item : Value) :
  item ∈ l -> is_dict item = false -> forallb is_dict l = false.
Proof.
  intros Hin Hitem. destruct (forallb is_dict l) eqn:E; [|done].
  rewrite forallb_forall in E. rewrite <- (E item), Hitem; [done|].
  by apply list_elem_of_In.
Qed.

Lemma html_table_records first records :
  html_table (VDict first) (map VDict records) = html_record_table first records.
Proof.
  unfold html_table, html_record_table. simpl.
  do 6 f_equal. by rewrite map_map.
Qed.

(** C7, as the code has it: a non-empty sequence of mappings gives the
    table of its records under the headers of the first; a sequence with
    an item that is no mapping gives an unordered list with one [<li>]
    per item; the empty sequence gives nothing after the heading. *)
Theorem C7_html_sequence (key : string) (data : list (string * Value)) (level : nat) :
  (forall first rest,
      dict_to_html ((key, VList (map VDict (first :: rest))) :: data) level
      = html_heading level key
          +:+ html_record_table first (first :: rest)
          +:+ dict_to_html data level)
  /\ (forall l item,
        item ∈ l -> is_dict item = false ->
        dict_to_html ((key, VList l) :: data) level
        = html_heading level key
            +:+ ("<ul>" +:+ nl
                   +:+ PyStr.concat
                         (map (fun item => "<li>" +:+ py_str item +:+ "</li>" +:+ nl) l)
                   +:+ "</ul>" +:+ nl)
            +:+ dict_to_html data level)
  /\ dict_to_html ((key, VList []) :: data) level
     = html_heading level key +:+ dict_to_html data level.
Proof.
  split; [|split].
  - intros first rest.
    change (dict_to_html ((key, VList (map VDict (first :: rest))) :: data) level)
      with (html_heading level key
              +:+ html_of_list (map VDict (first :: rest))
              +:+ dict_to_html data level).
    unfold html_of_list. rewrite forallb_is_dict_records.
    change (map VDict (first :: rest)) with (VDict first :: map VDict rest) at 1.
    cbv match. change (VDict first :: map VDict rest) with (map VDict (first :: rest)).
    by rewrite html_table_records.
  - intros l item Hin Hitem.
    change (dict_to_html ((key, VList l) :: data) level)
      with (html_heading level key +:+ html_of_list l +:+ dict_to_html data level).
    unfold html_of_list. by rewrite (forallb_is_dict_false l item Hin Hitem).
  - reflexivity.
Qed.

(** C7, witness: the table of two records, the second without the key
    [b]; a list with a scalar beside a mapping; the empty list. *)
Lemma C7_html_sequence_witness :
  dict_to_html [("rows", VList [VDict [("a", VInt 1); ("b", VInt 2)];
                                VDict [("a", VInt 3)]])] 1
  = "<h2>rows</h2>" +:+ nl +:+ "<table>" +:+ nl +:+ "<tr>" +:+ nl
      +:+ "<th>a</th>" +:+ nl +:+ "<th>b</th>" +:+ nl +:+ "</tr>" +:+ nl
      +:+ "<tr>" +:+ nl +:+ "<td>1</td>" +:+ nl +:+ "<td>2</td>" +:+ nl +:+ "</tr>" +:+ nl
      +:+ "<tr>" +:+ nl +:+ "<td>3</td>" +:+ nl +:+ "<td></td>" +:+ nl +:+ "</tr>" +:+ nl
      +:+ "</table>" +:+ nl
  /\ dict_to_html [("mix", VList [VInt 7; VDict [("a", VInt 1)]])] 1
     = "<h2>mix</h2>" +:+ nl +:+ "<ul>" +:+ nl +:+ "<li>7</li>" +:+ nl
         +:+ "<li>{'a': 1}</li>" +:+ nl +:+ "</ul>" +:+ nl.
Proof.
  split.
  - etrans;
      [exact (proj1 (C7_html_sequence "rows" [] 1)
                [("a", VInt 1); ("b", VInt 2)] [[("a", VInt 3)]])
      | reflexivity].
  - rewrite (proj1 (proj2 (C7_html_sequence "mix" [] 1))
               [VInt 7; VDict [("a", VInt 1)]] (VInt 7));
      [reflexivity | by left | reflexivity].
Defined.

(** C7, counterexample: for the empty sequence the claim promises an
    unordered list, and the code renders no list at all. *)
Lemma C7_empty_sequence_renders_nothing :
  dict_to_html [("k", VList [])] 1 = "<h2>k</h2>" +:+ nl
  /\ html_ul [] = "<ul>" +:+ nl +:+ "</ul>" +:+ nl
  /\ dict_to_html [("k", VList [])] 1 <> html_heading 1 "k" +:+ html_ul [].
Proof. repeat split. discriminate. Qed.

(** ** The file system operations *)

Lemma open_w_files filename text st st' :
  open_w filename text st = (st', Return tt) ->
  files st' = <[key_of st filename := text]> (files st) /\ cwd st' = cwd st.
Proof.
  unfold open_w. destruct (key_of st filename) as [|c key] eqn:Hkey; [done|].
  destruct (node_at (nodes st) (removelast (c :: key))) as [[|?]|]; try done.
  unfold files.
  destruct (nodes st !! (c :: key)) as [[|?]|]; try done;
    intros [= <-]; simpl; (split; [|done]); by apply omap_insert_Some.
Qed.

(** ** CSV export *)

Lemma wrong_fields_nil fieldnames rowdict :
  (forall k, k ∈ dict_keys rowdict -> k ∈ fieldnames) ->
  Csv.wrong_fields fieldnames rowdict = [].
Proof.
  unfold Csv.wrong_fields. induction (dict_keys rowdict) as [|k keys IH]; intros Hsub; [done|].
  simpl. rewrite bool_decide_eq_true_2 by (apply Hsub; by left).
  simpl. apply IH. intros k' Hk'. apply Hsub. by right.
Qed.

Lemma wrong_fields_cons fieldnames rowdict k :
  k ∈ dict_keys rowdict -> k ∉ fieldnames ->
  Csv.wrong_fields fieldnames rowdict <> [].
Proof.
  unfold Csv.wrong_fields. intros Hin Hout Hnil.
  assert (In k (List.filter (fun k => negb (bool_decide (k ∈ fieldnames)))
                  (dict_keys rowdict))) as Hk.
  { apply filter_In. split; [by apply list_elem_of_In|].
    by rewrite bool_decide_eq_false_2. }
  by rewrite Hnil in Hk.
Qed.

Lemma writerows_all_fit fieldnames data :
  (forall record, record ∈ data -> forall k, k ∈ dict_keys record -> k ∈ fieldnames) ->
  Csv.writerows fieldnames data
  = (PyStr.concat (map (fun record => Csv.writerow (map (csv_cell record) fieldnames)) data),
     None).
Proof.
  induction data as [|record data IH]; intros Hfit; [done|].
  simpl. unfold Csv.dict_to_list.
  rewrite wrong_fields_nil by (apply Hfit; by left).
  rewrite IH by (intros r Hr; apply Hfit; by right).
  reflexivity.
Qed.

Lemma writerows_refused fieldnames data record k :
  record ∈ data -> k ∈ dict_keys record -> k ∉ fieldnames ->
  exists text msg, Csv.writerows fieldnames data = (text, Some (Exn ValueError msg None)).
Proof.
  induction data as [|r data IH]; intros Hin Hk Hout; [by apply elem_of_nil in Hin|].
  simpl. unfold Csv.dict_to_list.
  destruct (Csv.wrong_fields fieldnames r) as [|w ws] eqn:Hw.
  - apply elem_of_cons in Hin as [->|Hin].
    + by apply (wrong_fields_cons fieldnames r k) in Hw.
    + destruct (IH Hin Hk Hout) as (text & msg & ->). eauto.
  - eauto.
Qed.

(** C1, as the code has it: for records whose first one has a key, the
    header row is the key order of the first record.  When no record has
    a key outside that header, the export succeeds and the file holds
    the header row and one row per record, cell by cell under the
    headers, empty where the record lacks the key.  When some record has
    a key outside the header, the export fails: [ExportError] chained to
    the failure below. *)
Theorem C1_csv_header_from_first_record
    (first : list (string * Value)) (rest : list (list (string * Value)))
    (filename : string) (st : fsys) :
  dict_keys first <> [] ->
  ((forall record, record ∈ rest -> forall k, k ∈ dict_keys record -> k ∈ dict_keys first) ->
   forall st',
     open_w (with_extension ".csv" filename)
            (csv_table (dict_keys first) (first :: rest)) st = (st', Return tt) ->
     export_to_csv (first :: rest) filename None st
     = (st', Return (abspath st' (with_extension ".csv" filename)))
     /\ files st' !! key_of st (with_extension ".csv" filename)
        = Some (csv_table (dict_keys first) (first :: rest)))
  /\ (forall record k,
        record ∈ rest -> k ∈ dict_keys record -> k ∉ dict_keys first ->
        exists cause,
          snd (export_to_csv (first :: rest) filename None st)
          = Raise (export_failure "CSV" cause)).
Proof.
  intros Hkeys. unfold export_to_csv.
  destruct (dict_keys first) as [|h hs] eqn:Hfirst; [done|]. split.
  - intros Hfit st' Hopen.
    rewrite writerows_all_fit.
    + unfold guarded, write_out. cbn [fst snd].
      unfold Csv.writeheader. fold (csv_table (h :: hs) (first :: rest)).
      rewrite Hopen. simpl. split; [done|].
      apply open_w_files in Hopen as [-> _]. apply lookup_insert_eq.
    + intros record [->|Hin]%elem_of_cons k Hk; [by rewrite <- Hfirst|by eapply Hfit].
  - intros record k Hin Hk Hout.
    destruct (writerows_refused (h :: hs) (first :: rest) record k) as (text & msg & ->);
      [by right|done|done|].
    unfold guarded, write_out. simpl.
    destruct (open_w _ _ st) as [st' [[]|e]]; simpl; eauto.
Qed.

(** C1, witness: two records, the second without the key [b], give the
    rows [a,b], [1,2] and [3,]. *)
Lemma C1_csv_header_from_first_record_witness :
  snd (export_to_csv fitting_records "t" None empty_machine) = Return "/srv/app/t.csv"
  /\ files (fst (export_to_csv fitting_records "t" None empty_machine))
       !! ["srv"; "app"; "t.csv"]
     = Some ("a,b" +:+ Csv.lineterminator +:+ "1,2" +:+ Csv.lineterminator
               +:+ "3," +:+ Csv.lineterminator).
Proof.
  pose proof (C1_csv_header_from_first_record
                [("a", VInt 1); ("b", VInt 2)] [[("a", VInt 3)]] "t" empty_machine) as H.
  destruct H as [H _]; [done|].
  destruct (H (ltac:(intros record ->%list_elem_of_singleton k
                             ->%list_elem_of_singleton; by left))
              (fst (open_w "t.csv" (csv_table ["a"; "b"] fitting_records) empty_machine))
              eq_refl) as [Hret Hfile].
  unfold fitting_records. rewrite Hret. split; [reflexivity|].
  etrans; [exact Hfile|reflexivity].
Defined.

(** C1, counterexample: the scenario of the claim.  The second record
    has the key [c], which the first has not; the export does not drop
    it but fails. *)
Lemma C1_extra_key_fails :
  snd (export_to_csv scenario_records "t" None empty_machine)
  = Raise (Exn ExportError
             "Failed to export data to CSV: dict contains fields not in fieldnames: 'c'"
             (Some (Exn ValueError "dict contains fields not in fieldnames: 'c'" None))).
Proof. reflexivity. Qed.

(** ** Paths *)

Module PathFacts.
Import PyStr StrFacts.

Lemma names_file_ext path name ext :
  names_file path name -> names_file (path +:+ ext) (name +:+ ext).
Proof.
  intros [->|[q ->]]; [by left|right].
  exists q. by rewrite !app_assoc.
Qed.

(** [os.path.join] puts a relative name last. *)
Lemma join_names_file a name :
  startswith name "/" = false -> names_file (OsPath.join a name) name.
Proof.
  intros Hrel. unfold OsPath.join. rewrite Hrel.
  case_decide; [by left|].
  destruct (endswith a "/") eqn:E; [|right; by exists a].
  apply endswith_spec in E as [q ->]. right. exists q. by rewrite app_assoc.
Qed.

Lemma join_ext a name ext :
  startswith name "/" = false -> startswith (name +:+ ext) "/" = false ->
  OsPath.join a (name +:+ ext) = OsPath.join a name +:+ ext.
Proof.
  intros H1 H2. unfold OsPath.join. rewrite H1, H2.
  case_decide; [done|].
  destruct (endswith a "/"); by rewrite !app_assoc.
Qed.

(** A suffix test on a path that names [name]: the answer is read off
    [name] as soon as the suffix fits neither across the slash nor
    inside the name. *)
Lemma endswith_app_cases s t suf :
  endswith (s +:+ t) suf = true -> endswith t suf = true \/ endswith suf t = true.
Proof.
  induction s as [|a s IH]; [by left|].
  rewrite app_cons. simpl. case_decide as E; [|done].
  intros _. right. rewrite <- E. apply (endswith_app (String a s) t).
Qed.

Lemma endswith_names_file_false path name ext :
  names_file path name ->
  endswith (lower name) ext = false ->
  endswith ext ("/" +:+ lower name) = false ->
  endswith (lower path) ext = false.
Proof.
  intros [->|[q ->]] Hname Hacross; [done|].
  rewrite lower_app. change (lower ("/" +:+ name)) with (String "/" (lower name)).
  change ("/" +:+ lower name) with (String "/" (lower name)) in Hacross.
  destruct (endswith (lower q +:+ String "/" (lower name)) ext) eqn:E; [|done].
  apply endswith_app_cases in E as [E|E]; [|congruence].
  simpl in E. case_decide as Heq; [|congruence].
  rewrite <- Heq in Hacross.
  by rewrite (endswith_refl (String "/" (lower name))) in Hacross.
Qed.

Lemma endswith_names_file_true path name ext :
  names_file path name ->
  endswith (lower name) ext = true ->
  endswith (lower path) ext = true.
Proof.
  intros Hpath Hname. apply (endswith_trans _ (lower name)); [|done].
  destruct Hpath as [->|[q ->]]; [apply endswith_refl|].
  rewrite !lower_app. apply endswith_spec.
  exists (lower q +:+ lower "/"). by rewrite app_assoc.
Qed.

End PathFacts.

(** What [normpath] and [abspath] do to the last component. *)
Module NormFacts.
Import PyStr StrFacts PathFacts.

Lemma split_nonempty sep s : split sep s <> [].
Proof.
  destruct s as [|c s]; simpl; [done|].
  case_decide; [done|]. by destruct (split sep s).
Qed.

Lemma split_app_sep sep a b :
  split sep (a +:+ String sep b) = split sep a ++ split sep b.
Proof.
  induction a as [|c a IH].
  - rewrite app_nil_l. simpl. by rewrite decide_True.
  - rewrite app_cons. simpl. rewrite IH. case_decide; [done|].
    pose proof (split_nonempty sep a). by destruct (split sep a).
Qed.

Lemma split_no_sep sep s : contains sep s = false -> split sep s = [s].
Proof.
  induction s as [|c s IH]; [done|].
  simpl. destruct (decide (c = sep)) as [->|Hne]; [done|].
  intros Hs. by rewrite IH.
Qed.

Lemma split_names_file path name :
  names_file path name -> contains "/" name = false ->
  exists front, split "/" path = front ++ [name].
Proof.
  intros [->|[q ->]] Hname.
  - exists []. by apply split_no_sep.
  - exists (split "/" q).
    change (q +:+ "/" +:+ name) with (q +:+ String "/" name).
    by rewrite split_app_sep, (split_no_sep _ name).
Qed.

Lemma join_snoc sep acc name : endswith (join sep (acc ++ [name])) name = true.
Proof.
  induction acc as [|s acc IH]; [apply endswith_refl|].
  change (join sep ((s :: acc) ++ [name]))
    with (match acc ++ [name] with
          | [] => s
          | _ => s +:+ sep +:+ join sep (acc ++ [name])
          end).
  destruct (acc ++ [name]) eqn:E; [by destruct acc|].
  apply endswith_spec in IH as [q ->].
  apply endswith_spec. exists (s +:+ sep +:+ q). by rewrite !app_assoc.
Qed.

Lemma norm_step_keeps k acc name :
  name <> "" -> name <> "." -> name <> ".." ->
  OsPath.norm_step k acc name = acc ++ [name].
Proof.
  intros H0 H1 H2. unfold OsPath.norm_step.
  rewrite decide_False by (intros [?|?]; done).
  by rewrite decide_True by by left.
Qed.

(** [normpath] keeps a last component that is a proper name. *)
Lemma normpath_names_file path name :
  names_file path name -> contains "/" name = false ->
  name <> "" -> name <> "." -> name <> ".." ->
  endswith (OsPath.normpath path) name = true.
Proof.
  intros Hpath Hsep H0 H1 H2.
  destruct (split_names_file path name Hpath Hsep) as [front Hsplit].
  assert (endswith (repeat "/" (OsPath.initial_slashes path)
                      +:+ join "/" (OsPath.norm_comps path)) name = true) as Hend.
  { unfold OsPath.norm_comps. rewrite Hsplit, fold_left_app. simpl.
    rewrite norm_step_keeps by done.
    pose proof (join_snoc "/" (fold_left (OsPath.norm_step (OsPath.initial_slashes path))
                                 front []) name) as [q ->]%endswith_spec.
    apply endswith_spec. eexists. by rewrite <- app_assoc. }
  unfold OsPath.normpath.
  case_decide as Hp.
  - subst path. destruct Hpath as [<-|[q Hq]]; [done|].
    symmetry in Hq. apply app_eq_nil in Hq as [_ Hq]. discriminate.
  - case_decide as Hp'; [|done].
    rewrite Hp' in Hend. apply endswith_length in Hend.
    destruct name; [done|]. simpl in Hend. lia.
Qed.

Lemma abspath_names_file cwd path name :
  names_file path name -> contains "/" name = false ->
  name <> "" -> name <> "." -> name <> ".." ->
  endswith (OsPath.abspath cwd path) name = true.
Proof.
  intros Hpath Hsep H0 H1 H2. unfold OsPath.abspath.
  apply normpath_names_file; try done.
  destruct (OsPath.isabs path) eqn:Habs; [done|].
  unfold OsPath.join. unfold OsPath.isabs in Habs. rewrite Habs.
  case_decide; [done|].
  destruct Hpath as [->|[q ->]].
  - destruct (endswith cwd "/") eqn:E; [|right; by exists cwd].
    apply endswith_spec in E as [r ->]. right. exists r. by rewrite app_assoc.
  - right. destruct (endswith cwd "/").
    + exists (cwd +:+ q). by rewrite app_assoc.
    + exists (cwd +:+ "/" +:+ q). by rewrite !app_assoc.
Qed.

End NormFacts.

(** ** The dispatcher *)

Section DispatcherFacts.
Context {libs : Libraries}.
Import PyStr StrFacts PathFacts NormFacts.

(** [os.makedirs] creates directories only: the regular files stay as
    they are. *)
Lemma makedirs_from_files name m pre rest :
  omap file_content (fst (makedirs_from name m pre rest)) = omap file_content m.
Proof.
  revert m pre.
  induction rest as [|comp rest IH]; intros m pre; [done|].
  simpl. destruct (m !! (pre ++ [comp])) as [[|c]|] eqn:Hkey; [apply IH|done|].
  rewrite IH. rewrite omap_insert_None by done.
  apply delete_id. by rewrite lookup_omap, Hkey.
Qed.

Lemma makedirs_files name st :
  files (fst (makedirs name st)) = files st /\ cwd (fst (makedirs name st)) = cwd st.
Proof.
  unfold makedirs, files.
  pose proof (makedirs_from_files name (nodes st) [] (key_of st name)) as H.
  by destruct (makedirs_from name (nodes st) [] (key_of st name)).
Qed.

(** The directory step keeps the regular files and the working
    directory, and hands on a path that names [filename] whenever
    [filename] is relative. *)
Lemma ensure_output_dir_files config filename st :
  files (fst (ensure_output_dir config filename st)) = files st
  /\ cwd (fst (ensure_output_dir config filename st)) = cwd st.
Proof.
  unfold ensure_output_dir.
  destruct (bool_decide _ && negb _); [|done].
  pose proof (makedirs_files (output_dir (export config)) st) as H.
  by destruct (makedirs _ st) as [st' [[]|e]].
Qed.

Lemma ensure_output_dir_names config filename st st1 target :
  ensure_output_dir config filename st = (st1, Return target) ->
  OsPath.isabs filename = false ->
  names_file target filename.
Proof.
  unfold ensure_output_dir. intros H Hrel. rewrite Hrel in H.
  destruct (bool_decide _ && negb false).
  - destruct (makedirs _ st) as [st' [[]|e]]; [|done].
    injection H as _ <-. by apply join_names_file.
  - injection H as _ <-. by left.
Qed.

(** The directory step looks at [filename] only to see whether it is
    absolute, and appends it with [os.path.join]. *)
Lemma ensure_output_dir_ext config name ext st :
  startswith name "/" = false -> startswith (name +:+ ext) "/" = false ->
  ensure_output_dir config (name +:+ ext) st
  = (fst (ensure_output_dir config name st),
     match snd (ensure_output_dir config name st) with
     | Return target => Return (target +:+ ext)
     | Raise e => Raise e
     end).
Proof.
  intros H1 H2. unfold ensure_output_dir, OsPath.isabs. rewrite H1, H2.
  destruct (bool_decide _ && negb false); [|done].
  destruct (makedirs _ st) as [st' [[]|e]]; [|done].
  simpl. by rewrite join_ext.
Qed.

(** Called by itself on a value that is no dict, [export_to_xml] fails
    inside its own [try]: [data.items()] raises [AttributeError], the
    handler wraps it, and no file is opened. *)
Lemma export_to_xml_not_a_dict data filename root_element st :
  is_dict data = false ->
  export_to_xml data filename root_element st
  = (st, Raise (export_failure "XML"
                  (Exn AttributeError
                     ("'" +:+ type_name data +:+ "' object has no attribute 'items'")
                     None))).
Proof. by destruct data. Qed.

(** Every codec ends in its own handler, so the handler of
    [export_data] has nothing left to wrap. *)
Lemma reraise_guarded format what body :
  reraise format (snd (guarded what body)) = snd (guarded what body).
Proof. unfold guarded. simpl. by destruct (snd body). Qed.

Lemma guarded_raises what body e :
  snd (guarded what body) = Raise e -> exn_cls e = ExportError.
Proof. unfold guarded. simpl. destruct (snd body); simpl; by intros [= <-]. Qed.

(** Whatever is raised inside the [try] of [export_data] is an
    [ExportError]. *)
Lemma dispatch_raises_export_error format data filename st e :
  snd (dispatch format data filename st) = Raise e -> exn_cls e = ExportError.
Proof.
  unfold dispatch.
  repeat case_bool_decide;
    repeat match goal with |- context [negb ?b] => destruct b; simpl end;
    try (by intros [= <-]);
    first [ apply guarded_raises ].
Qed.

End DispatcherFacts.

(** [splitext] and [lower] commute: the extension of the lowered name is
    the lowered extension. *)
Module SplitextFacts.
Import PyStr StrFacts OsPath.

Section Separator.
Variable c : ascii.
Hypothesis no_letter : forall a, lower_char a = c <-> a = c.

Lemma rfind_from_lower s i : rfind_from c (lower s) i = rfind_from c s i.
Proof.
  revert i. induction s as [|a s IH]; intros i; [done|].
  simpl. rewrite IH. destruct (0 <=? rfind_from c s (i + 1)); [done|].
  destruct (decide (a = c)) as [->|Hne].
  - by rewrite decide_True by by apply no_letter.
  - by rewrite decide_False by by rewrite no_letter.
Qed.

Lemma has_other_lower s : has_other c (lower s) = has_other c s.
Proof.
  induction s as [|a s IH]; [done|].
  simpl. rewrite IH. destruct (decide (a = c)) as [->|Hne].
  - by rewrite decide_True by by apply no_letter.
  - by rewrite decide_False by by rewrite no_letter.
Qed.

End Separator.

Lemma take_lower n s : take n (lower s) = lower (take n s).
Proof.
  revert s. induction n as [|n IH]; intros [|a s]; try done.
  simpl. by rewrite IH.
Qed.

Lemma drop_lower n s : drop n (lower s) = lower (drop n s).
Proof. revert s. induction n as [|n IH]; intros [|a s]; try done. apply IH. Qed.

Lemma splitext_lower p :
  splitext (lower p) = (lower (fst (splitext p)), lower (snd (splitext p))).
Proof.
  unfold splitext, rfind.
  rewrite !(rfind_from_lower "/" lower_char_slash), !(rfind_from_lower "." lower_char_dot).
  rewrite drop_lower, take_lower, (has_other_lower "." lower_char_dot).
  destruct (_ && _); simpl; [|done].
  by rewrite take_lower, drop_lower.
Qed.

Lemma lstrip_not_startswith c s : startswith (lstrip c s) (chr c) = false.
Proof.
  induction s as [|a s IH]; [done|].
  simpl. case_decide as E; [done|].
  simpl. by rewrite decide_False by done.
Qed.

End SplitextFacts.

(** ** Properties of [export_data] *)

Section DispatcherClaims.
Context {libs : Libraries}.
Import PyStr StrFacts PathFacts NormFacts SplitextFacts.

Lemma dispatch_json data filename st :
  dispatch "json" data filename st = export_to_json data filename true st.
Proof. reflexivity. Qed.

Lemma dispatch_xml data filename st :
  dispatch "xml" data filename st
  = if negb (is_dict data)
    then (st, Raise (export_error "XML export requires a dictionary"))
    else export_to_xml data filename "data" st.
Proof. reflexivity. Qed.

Lemma dispatch_unknown format data filename st :
  format ∉ known_tokens ->
  dispatch format data filename st
  = (st, Raise (export_error ("Unsupported export format: " +:+ format))).
Proof.
  intros Hformat. unfold known_tokens in Hformat.
  rewrite !not_elem_of_cons in Hformat. unfold dispatch.
  repeat (rewrite bool_decide_eq_false_2;
          [|rewrite ?not_elem_of_cons, elem_of_nil; tauto]).
  reflexivity.
Qed.

Lemma dispatch_shape_rejected format data filename st :
  shape_rejected format data = true ->
  exists msg, dispatch format data filename st = (st, Raise (export_error msg)).
Proof.
  unfold shape_rejected. intros H.
  apply orb_true_iff in H as [H|H]; apply andb_true_iff in H as [Hf Hd];
    apply bool_decide_eq_true in Hf;
    repeat (apply elem_of_cons in Hf as [->|Hf]); try (by apply elem_of_nil in Hf);
    unfold dispatch; simpl; rewrite Hd; eauto.
Qed.

(** A path returned by a text codec is [os.path.abspath] of the name it
    opened. *)
Lemma write_out_returns what filename out st path :
  snd (guarded what (write_out filename out st)) = Return path ->
  exists cwd, path = OsPath.abspath cwd filename.
Proof.
  unfold guarded, write_out. simpl.
  destruct (open_w filename (fst out) st) as [st' [[]|e]]; simpl; [|done].
  destruct (snd out); simpl; [done|].
  intros [= <-]. by eexists.
Qed.

(** [export_data] with the format ["json"] given is the directory step
    followed by [export_to_json]. *)
Lemma export_data_json config data filename st :
  export_data config data filename (Some "json") st
  = match ensure_output_dir config filename st with
    | (st1, Return target) => export_to_json data target true st1
    | (st1, Raise e) => (st1, Raise e)
    end.
Proof.
  unfold export_data. simpl resolve_format.
  destruct (ensure_output_dir config filename st) as [st1 [target|e]]; [|done].
  rewrite dispatch_json. unfold export_to_json, guarded.
  cbv beta iota. f_equal. apply (reraise_guarded "json" "JSON").
Qed.

(** When [export_data] with the format ["json"] returns, the path ends
    with the name it was given, completed by [.json] unless the name
    ends with it already. *)
Lemma export_data_json_path config data name st path :
  startswith name "/" = false ->
  contains "/" (with_extension ".json" name) = false ->
  with_extension ".json" name <> "." -> with_extension ".json" name <> ".." ->
  (endswith (lower name) ".json" = false -> endswith ".json" ("/" +:+ lower name) = false) ->
  snd (export_data config data name (Some "json") st) = Return path ->
  endswith path (with_extension ".json" name) = true.
Proof.
  intros Hrel Hsep Hdot Hdots Hacross. rewrite export_data_json.
  destruct (ensure_output_dir config name st) as [st1 [target|e]] eqn:Hdir; [|done].
  apply ensure_output_dir_names in Hdir; [|done].
  unfold export_to_json. intros [cwd ->]%write_out_returns.
  apply abspath_names_file; try done.
  - unfold with_extension.
    destruct (endswith (lower name) ".json") eqn:E.
    + by rewrite (endswith_names_file_true target name).
    + rewrite (endswith_names_file_false target name) by auto.
      by apply names_file_ext.
  - unfold with_extension. destruct (endswith (lower name) ".json") eqn:E.
    + intros ->. discriminate.
    + intros [_ ?]%app_eq_nil. discriminate.
Qed.

(** C2, at a failing input: with the default configuration and a regular
    file where the output directory [./output] should be, [os.makedirs]
    raises [FileExistsError] before the [try] is entered, and
    [export_data] lets it out as it is: no [ExportError], no chained
    cause. *)
Theorem C2_makedirs_failure_escapes_unwrapped (data : Value) :
  snd (export_data DEFAULT_CONFIG data "report" (Some "json") blocked_machine)
  = Raise (Exn FileExistsError "[Errno 17] File exists: './output'" None)
  /\ is_export_error (Exn FileExistsError "[Errno 17] File exists: './output'" None) = false.
Proof. split; reflexivity. Qed.

(** What does hold: past the directory step, everything [export_data]
    raises is an [ExportError]. *)
Lemma export_data_raises config data filename format st e :
  snd (export_data config data filename format st) = Raise e ->
  exn_cls e = ExportError \/ snd (ensure_output_dir config filename st) = Raise e.
Proof.
  unfold export_data.
  destruct (ensure_output_dir config filename st) as [st1 [target|e1]]; [|by right].
  destruct (dispatch _ data target st1) as [st2 r] eqn:Hd. simpl.
  destruct r as [path|e2]; [done|].
  pose proof (dispatch_raises_export_error
                (resolve_format config filename format) data target st1 e2) as He.
  rewrite Hd in He. specialize (He eq_refl).
  unfold reraise, is_export_error. rewrite He. intros [= <-]. by left.
Qed.

(** C3: a value that is no dict, sent to the format ["xml"] (given, or
    read off the file name), is refused by [export_data] with the
    [ExportError] "XML export requires a dictionary" once the directory
    step is through; the state is the one the directory step left, with
    the regular files of the start: [export_to_xml] did not run,
    whatever the libraries would do. *)
Theorem C3_xml_requires_mapping (config : AppConfig) (data : Value)
    (filename : string) (format : option string) (st st1 : fsys) (target : string) :
  is_dict data = false ->
  resolve_format config filename format = "xml" ->
  ensure_output_dir config filename st = (st1, Return target) ->
  export_data config data filename format st
  = (st1, Raise (Exn ExportError "XML export requires a dictionary" None))
  /\ files st1 = files st.
Proof.
  intros Hdata Hformat Hdir. split.
  - unfold export_data. rewrite Hformat, Hdir, dispatch_xml, Hdata. reflexivity.
  - pose proof (ensure_output_dir_files config filename st) as [H _].
    by rewrite Hdir in H.
Qed.





End DispatcherClaims.

(** ** The claims on the concrete machine *)

(** C3, witness: the list [[1, 2, 3]] sent to XML under the name [bad]. *)
Lemma C3_xml_requires_mapping_witness :
  export_data (libs := demo_libs) DEFAULT_CONFIG (VList [VInt 1; VInt 2; VInt 3])
    "bad" (Some "xml") empty_machine
  = (fst (ensure_output_dir DEFAULT_CONFIG "bad" empty_machine),
     Raise (Exn ExportError "XML export requires a dictionary" None))
  /\ files (fst (ensure_output_dir DEFAULT_CONFIG "bad" empty_machine))
     = files empty_machine.
Proof.
  apply (C3_xml_requires_mapping (libs := demo_libs) DEFAULT_CONFIG
           (VList [VInt 1; VInt 2; VInt 3]) "bad" (Some "xml") empty_machine
           (fst (ensure_output_dir DEFAULT_CONFIG "bad" empty_machine)) "./output/bad");
    reflexivity.
Defined.






(** C9 on a mixed sequence: a bullet, a nested section, a bullet. *)
Example markdown_mixed_sequence :
  dict_to_markdown [("items", VList [VStr "a"; VDict [("k", VInt 1)]; VStr "b"])] 1
  = "## items" +:+ nl +:+ nl +:+ "- a" +:+ nl
      +:+ "### k" +:+ nl +:+ nl +:+ "1" +:+ nl +:+ nl
      +:+ "- b" +:+ nl +:+ nl.
Proof. reflexivity. Qed.

(** * Further properties of the export engine *)

(** ** Names of XML elements *)

Section ElementNames.
Import PyStr StrFacts.

(** The characters [dict_to_xml] keeps in a key. *)
Let name_char (c : ascii) : bool := isalnum c || bool_decide (c = "_"%char).

Lemma filter_contains p s c : contains c (filter p s) = true -> p c = true.
Proof.
  induction s as [|a s IH]; [done|].
  simpl. destruct (p a) eqn:Hp; [|done].
  simpl. case_decide as E; [by subst|done].
Qed.

Lemma filter_idemp p s : filter p (filter p s) = filter p s.
Proof.
  induction s as [|a s IH]; [done|].
  simpl. destruct (p a) eqn:Hp; [|done].
  simpl. by rewrite Hp, IH.
Qed.


End ElementNames.

(** ** Induction on values *)

(** Induction that reaches the members of lists and dicts. *)
Lemma Value_nested_ind (P : Value -> Prop) :
  P VNone -> (forall b, P (VBool b)) -> (forall n, P (VInt n)) ->
  (forall r, P (VFloat r)) -> (forall s, P (VStr s)) ->
  (forall l, Forall P l -> P (VList l)) ->
  (forall d, Forall (fun kv => P (snd kv)) d -> P (VDict d)) ->
  forall v, P v.
Proof.
  intros HN HB HI HF HS HL HD. fix IH 1.
  intros [ |b|n|r|s|l|d];
    [exact HN|apply HB|apply HI|apply HF|apply HS| |].
  - apply HL. induction l as [|x l IHl]; constructor; [apply IH|exact IHl].
  - apply HD. induction d as [|[k x] d IHd]; constructor; [apply IH|exact IHd].
Qed.

(** ** The element tree *)

Section ElementTree.
Import PyStr StrFacts.

Lemma tags_Element tag text children :
  tags (Element tag text children) = tag :: flat_map tags children.
Proof.
  simpl; f_equal; induction children as [|c cs IH]; simpl; congruence.
Qed.

Lemma xml_of_value_dict name d :
  xml_of_value name (VDict d)
  = Element name None (map (fun kv => xml_of_value (element_name (fst kv)) (snd kv)) d).
Proof.
  simpl; f_equal; induction d as [|[k x] d IH]; simpl; congruence.
Qed.

Lemma element_name_ok key : is_element_name (element_name key).
Proof.
  unfold is_element_name, element_name.
  set (p := fun c => isalnum c || bool_decide (c = "_"%char)).
  destruct (decide (filter p key = "")) as [E|E].
  - split; [done|]. intros c Hc. simpl in Hc.
    repeat (case_decide; [by subst|]). done.
  - split; [done|]. intros c. apply (filter_contains p).
Qed.

Lemma item_name_ok : is_element_name "item".
Proof.
  split; [done|]. intros c Hc. simpl in Hc.
  repeat (case_decide; [by subst|]). done.
Qed.



End ElementTree.

(** ** CSV export without a header *)

(** X3: when the record set is empty, or its first record has no key,
    [export_to_csv] without a header list writes an empty file and
    returns its path: no header row, and no row for any later record,
    whatever keys it has. *)
Theorem X3_csv_without_header (data : list (list (string * Value)))
    (filename : string) (st st' : fsys) :
  (data = [] \/ exists rest, data = [] :: rest) ->
  open_w (with_extension ".csv" filename) "" st = (st', Return tt) ->
  export_to_csv data filename None st
  = (st', Return (abspath st' (with_extension ".csv" filename)))
  /\ files st' !! key_of st (with_extension ".csv" filename) = Some "".
Proof.
  intros Hdata Hopen.
  assert (export_to_csv data filename None st
          = guarded "CSV" (write_out (with_extension ".csv" filename) ("", None) st))
    as -> by (by destruct Hdata as [->|[rest ->]]).
  unfold guarded, write_out. cbn [fst snd]. rewrite Hopen. simpl.
  split; [done|].
  apply open_w_files in Hopen as [-> _]. apply lookup_insert_eq.
Qed.

(** X3, witness: a first record without keys, followed by one with a
    key. *)
Lemma X3_csv_without_header_witness :
  snd (export_to_csv [[]; [("a", VInt 1)]] "empty" None empty_machine)
  = Return "/srv/app/empty.csv"
  /\ files (fst (export_to_csv [[]; [("a", VInt 1)]] "empty" None empty_machine))
       !! ["srv"; "app"; "empty.csv"] = Some "".
Proof.
  destruct (X3_csv_without_header [[]; [("a", VInt 1)]] "empty" empty_machine
              (fst (open_w "empty.csv" "" empty_machine))
              (or_intror (ex_intro _ [[("a", VInt 1)]] eq_refl)) eq_refl)
    as [Hret Hfile].
  rewrite Hret. split; [reflexivity|]. etrans; [exact Hfile|reflexivity].
Defined.

(** ** Failures of the codecs and of the dispatcher *)

Section Failures.
Context {libs : Libraries}.

Lemma guarded_failure what body e :
  snd (guarded what body) = Raise e -> exists cause, e = export_failure what cause.
Proof. unfold guarded. simpl. destruct (snd body); simpl; [done|]. intros [= <-]. eauto. Qed.


End Failures.

(** A machine with a directory where [/srv/app.md] would be written. *)
Definition occupied_machine : fsys :=
  {| cwd := "/srv/app";
     nodes := {[ ["srv"] := Dir; ["srv"; "app"] := Dir; ["srv"; "app.md"] := Dir ]} |}.


(** ** Where [export_data] cannot let a raw error out *)

Section DispatcherFailures.
Context {libs : Libraries}.

(** X5: when the file name is absolute, or no output directory is
    configured, [export_data] creates no directory, passes the file name
    on unchanged, and every exception it raises is an [ExportError]. *)
Theorem X5_absolute_filename_only_export_errors (config : AppConfig) (data : Value)
    (filename : string) (format : option string) (st : fsys) :
  OsPath.isabs filename = true \/ output_dir (export config) = "" ->
  ensure_output_dir config filename st = (st, Return filename)
  /\ forall e,
       snd (export_data config data filename format st) = Raise e ->
       exn_cls e = ExportError.
Proof.
  intros Hcase.
  assert (ensure_output_dir config filename st = (st, Return filename)) as Hdir.
  { unfold ensure_output_dir. destruct Hcase as [->| ->]; [|done].
    by rewrite andb_false_r. }
  split; [done|]. intros e He.
  destruct (export_data_raises config data filename format st e He) as [H|H]; [done|].
  by rewrite Hdir in H.
Qed.

(** X6: a format token the dispatcher does not know, given or read off
    the file name, makes [export_data] raise: the regular files are
    those of the start, the state is the one the directory step left,
    and once that step is through the exception is the [ExportError]
    "Unsupported export format:" with the token.  The configured
    default is not tried instead. *)
Theorem X6_unsupported_format (config : AppConfig) (data : Value)
    (filename : string) (format : option string) (st : fsys) :
  resolve_format config filename format ∉ known_tokens ->
  files (fst (export_data config data filename format st)) = files st
  /\ fst (export_data config data filename format st)
     = fst (ensure_output_dir config filename st)
  /\ (forall st1 target,
        ensure_output_dir config filename st = (st1, Return target) ->
        snd (export_data config data filename format st)
        = Raise (Exn ExportError
                   ("Unsupported export format: "
                      +:+ resolve_format config filename format) None)).
Proof.
  intros Hformat.
  pose proof (ensure_output_dir_files config filename st) as [Hfiles _].
  unfold export_data.
  destruct (ensure_output_dir config filename st) as [st1 [target|e]].
  - rewrite dispatch_unknown by done. simpl.
    repeat split; try done; by intros ? ? [= <- <-].
  - simpl. repeat split; try done.
Qed.

End DispatcherFailures.

(** X5, witness: an absolute file name on the machine where the output
    directory cannot be made; the export goes through. *)
Lemma X5_absolute_filename_only_export_errors_witness :
  snd (export_data (libs := demo_libs) DEFAULT_CONFIG (VInt 1) "/srv/app/r.json"
         (Some "json") blocked_machine)
  = Return "/srv/app/r.json"
  /\ forall e,
       snd (export_data (libs := demo_libs) DEFAULT_CONFIG (VInt 1) "/srv/app/r.json"
              (Some "json") blocked_machine) = Raise e ->
       exn_cls e = ExportError.
Proof.
  split; [reflexivity|].
  apply (X5_absolute_filename_only_export_errors (libs := demo_libs) DEFAULT_CONFIG
           (VInt 1) "/srv/app/r.json" (Some "json") blocked_machine).
  by left.
Defined.

(** X6, witness: [notes.txt] with no format given; the default format
    [json] is not used. *)
Lemma X6_unsupported_format_witness :
  snd (export_data (libs := demo_libs) DEFAULT_CONFIG (VInt 1) "notes.txt" None
         empty_machine)
  = Raise (Exn ExportError "Unsupported export format: txt" None)
  /\ files (fst (export_data (libs := demo_libs) DEFAULT_CONFIG (VInt 1) "notes.txt" None
                   empty_machine))
     = files empty_machine.
Proof.
  destruct (X6_unsupported_format (libs := demo_libs) DEFAULT_CONFIG (VInt 1)
              "notes.txt" None empty_machine) as (Hfiles & _ & Hraise).
  - apply (bool_decide_unpack ("txt" ∉ known_tokens)). exact I.
  - split; [|exact Hfiles].
    exact (Hraise (fst (ensure_output_dir DEFAULT_CONFIG "notes.txt" empty_machine))
             "./output/notes.txt" eq_refl).
Defined.

(** ** The advertised formats *)

Section SupportedFormats.
Context {libs : Libraries}.

(** X7: every format that [get_supported_formats] advertises is one the
    dispatcher knows: given such a token, [export_data] never answers
    "Unsupported export format", whatever the value and the state. *)
Theorem X7_supported_formats_are_dispatched (format : string) (data : Value)
    (filename : string) (st : fsys) :
  format ∈ get_supported_formats ->
  format ∈ known_tokens
  /\ snd (dispatch format data filename st)
     <> Raise (Exn ExportError ("Unsupported export format: " +:+ format) None).
Proof.
  unfold get_supported_formats. intros Hin.
  repeat (apply elem_of_cons in Hin as [->|Hin]); try (by apply elem_of_nil in Hin);
    (split; [apply (bool_decide_unpack _); exact I|]);
    unfold dispatch; simpl;
    repeat match goal with |- context [negb ?b] => destruct b; simpl end;
    try discriminate;
    intros [cause Hcause]%guarded_failure; discriminate.
Qed.

End SupportedFormats.

(** X7, witness: [excel], which the dispatcher knows beside [xlsx]. *)
Lemma X7_supported_formats_are_dispatched_witness :
  "excel" ∈ known_tokens
  /\ snd (dispatch (libs := demo_libs) "excel" (VList []) "book" empty_machine)
     <> Raise (Exn ExportError "Unsupported export format: excel" None).
Proof.
  apply (X7_supported_formats_are_dispatched (libs := demo_libs) "excel" (VList [])
           "book" empty_machine).
  apply (bool_decide_unpack ("excel" ∈ get_supported_formats)). exact I.
Defined.

(** ** Rendering entry by entry *)

(** X8: the Markdown and the HTML of a dict are the texts of its entries
    one after the other: rendering two dicts joined is joining their
    renderings, at every level, so no entry influences the text of
    another. *)
Theorem X8_rendering_composes (d1 d2 : list (string * Value)) (level : nat) :
  dict_to_markdown (d1 ++ d2) level
  = dict_to_markdown d1 level +:+ dict_to_markdown d2 level
  /\ dict_to_html (d1 ++ d2) level
     = dict_to_html d1 level +:+ dict_to_html d2 level.
Proof.
  split; induction d1 as [|[key value] d1 IH]; try reflexivity;
    simpl; rewrite IH; by rewrite !StrFacts.app_assoc.
Qed.

(** ** What a text codec does to the file system *)

Lemma write_out_frame filename text st st' r :
  write_out filename (text, None) st = (st', r) ->
  (r = Return (abspath st filename)
   /\ nodes st' = <[key_of st filename := File text]> (nodes st)
   /\ cwd st' = cwd st)
  \/ (exists e, r = Raise e /\ st' = st).
Proof.
  unfold write_out, open_w. cbn [fst snd].
  destruct (key_of st filename) as [|c key] eqn:Hkey; [intros [= <- <-]; eauto|].
  destruct (node_at (nodes st) (removelast (c :: key))) as [[|?]|];
    try (intros [= <- <-]; eauto).
  destruct (nodes st !! (c :: key)) as [[|?]|]; intros [= <- <-]; eauto.
Qed.



(** ** The extension of the path a codec returns *)

Section ReturnedPath.
Import PyStr StrFacts PathFacts NormFacts.

(** Every path names its last component, which holds no slash. *)
Lemma names_file_exists s :
  exists name, names_file s name /\ contains "/" name = false.
Proof.
  induction s as [|a s (name & Hname & Hsep)].
  - exists "". split; [by left|done].
  - destruct (decide (a = "/"%char)) as [->|Hne].
    + exists name. split; [|done]. right.
      destruct Hname as [->|[q ->]]; [by exists ""|by exists (String "/" q)].
    + destruct Hname as [->|[q ->]].
      * exists (String a name). split; [by left|].
        simpl. by rewrite decide_False.
      * exists name. split; [|done]. right. by exists (String a q).
Qed.

Lemma contains_app_r c s t : contains c t = true -> contains c (s +:+ t) = true.
Proof.
  intros Ht. induction s as [|a s IH]; [done|].
  rewrite app_cons. simpl. by case_decide.
Qed.

(** A suffix without the separator lies within the last component. *)
Lemma endswith_after_sep c q n suf :
  contains c suf = false ->
  endswith (q +:+ String c n) suf = true -> endswith n suf = true.
Proof.
  intros Hsuf. induction q as [|a q IH].
  - rewrite app_nil_l. simpl. case_decide as E; [|done].
    subst suf. simpl in Hsuf. by rewrite decide_True in Hsuf.
  - rewrite app_cons. simpl. case_decide as E; [|done].
    subst suf. simpl in Hsuf. case_decide; [done|].
    by rewrite (contains_app_r c q (String c n)) in Hsuf
      by (simpl; by rewrite decide_True).
Qed.

Lemma lower_length_eq s : String.length (lower s) = String.length s.
Proof. induction s as [|a s IH]; [done|]. simpl. by rewrite IH. Qed.

(** [abspath] keeps an extension of three characters or more. *)
Lemma abspath_keeps_ext cwd filename ext :
  contains "/" ext = false -> (3 <= String.length ext)%nat ->
  endswith (lower filename) ext = true ->
  endswith (lower (OsPath.abspath cwd filename)) ext = true.
Proof.
  intros Hsep Hlen Hext.
  destruct (names_file_exists filename) as (name & Hname & Hnosep).
  assert (endswith (lower name) ext = true) as Hn.
  { destruct Hname as [->|[q ->]]; [done|].
    rewrite lower_app in Hext.
    change (lower ("/" +:+ name)) with (String "/" (lower name)) in Hext.
    by apply endswith_after_sep in Hext. }
  assert (3 <= String.length name)%nat as Hlong.
  { apply endswith_length in Hn. rewrite <- (lower_length_eq name). lia. }
  assert (endswith (OsPath.abspath cwd filename) name = true) as Habs.
  { apply abspath_names_file; try done; intros ->; simpl in Hlong; lia. }
  apply endswith_spec in Habs as [r Hr].
  rewrite Hr, lower_app.
  apply (endswith_trans _ (lower name)); [apply endswith_app|done].
Qed.

Lemma with_extension_endswith ext filename :
  lower ext = ext -> endswith (lower (with_extension ext filename)) ext = true.
Proof.
  intros Hext. unfold with_extension.
  destruct (endswith (lower filename) ext) eqn:E; [done|].
  by rewrite lower_app, Hext, endswith_app.
Qed.

End ReturnedPath.

Section ReturnedPathCodecs.
Context {libs : Libraries}.
Import PyStr StrFacts.

Lemma library_out_returns what filename out path :
  snd (guarded what (library_out filename out)) = Return path ->
  exists cwd, path = OsPath.abspath cwd filename.
Proof.
  unfold guarded, library_out. simpl. destruct (snd out); simpl; [done|].
  intros [= <-]. by eexists.
Qed.

Lemma with_extension2_endswith ext1 ext2 filename :
  lower ext1 = ext1 ->
  endswith (lower (with_extension2 ext1 ext2 filename)) ext1 = true
  \/ endswith (lower (with_extension2 ext1 ext2 filename)) ext2 = true.
Proof.
  intros Hext. unfold with_extension2.
  destruct (endswith (lower filename) ext1) eqn:E1; [by left|].
  destruct (endswith (lower filename) ext2) eqn:E2; [by right|].
  left. simpl. by rewrite lower_app, Hext, endswith_app.
Qed.

(** X10: the path a codec returns ends with the extension of its
    format, whatever the case of the letters: [.csv], [.json], [.xml],
    [.md], [.html], [.xlsx], [.db], and for YAML and pickle one of the
    two extensions the codec accepts. *)
Theorem X10_returned_path_has_extension (filename : string) (st : fsys) (path : string) :
  (forall data headers,
      snd (export_to_csv data filename headers st) = Return path ->
      endswith (lower path) ".csv" = true)
  /\ (forall data pretty,
        snd (export_to_json data filename pretty st) = Return path ->
        endswith (lower path) ".json" = true)
  /\ (forall data root,
        snd (export_to_xml data filename root st) = Return path ->
        endswith (lower path) ".xml" = true)
  /\ (forall data title,
        snd (export_to_markdown data filename title st) = Return path ->
        endswith (lower path) ".md" = true)
  /\ (forall data title,
        snd (export_to_html data filename title st) = Return path ->
        endswith (lower path) ".html" = true)
  /\ (forall data,
        snd (export_to_yaml data filename st) = Return path ->
        endswith (lower path) ".yaml" = true \/ endswith (lower path) ".yml" = true)
  /\ (forall data sheet,
        snd (export_to_excel data filename sheet st) = Return path ->
        endswith (lower path) ".xlsx" = true)
  /\ (forall data table,
        snd (export_to_sqlite data filename table st) = Return path ->
        endswith (lower path) ".db" = true)
  /\ (forall data,
        snd (export_to_pickle data filename st) = Return path ->
        endswith (lower path) ".pkl" = true \/ endswith (lower path) ".pickle" = true).
Proof.
  assert (forall ext cwd, lower ext = ext -> contains "/" ext = false ->
            (3 <= String.length ext)%nat ->
            endswith (lower (OsPath.abspath cwd (with_extension ext filename))) ext = true)
    as Hone.
  { intros ext cwd H1 H2 H3. apply abspath_keeps_ext; try done.
    by apply with_extension_endswith. }
  assert (forall ext1 ext2 cwd, lower ext1 = ext1 ->
            contains "/" ext1 = false -> contains "/" ext2 = false ->
            (3 <= String.length ext1)%nat -> (3 <= String.length ext2)%nat ->
            endswith (lower (OsPath.abspath cwd (with_extension2 ext1 ext2 filename))) ext1
            = true
            \/ endswith (lower (OsPath.abspath cwd (with_extension2 ext1 ext2 filename))) ext2
               = true)
    as Htwo.
  { intros ext1 ext2 cwd H1 H2 H3 H4 H5.
    destruct (with_extension2_endswith ext1 ext2 filename H1);
      [left|right]; by apply abspath_keeps_ext. }
  repeat split.
  - intros data headers [cwd ->]%write_out_returns. apply Hone; first [done|simpl; lia].
  - intros data pretty [cwd ->]%write_out_returns. apply Hone; first [done|simpl; lia].
  - intros data root. unfold export_to_xml.
    destruct (items data) as [d|e]; [|done].
    destruct (toprettyxml _) as [text|e]; [|done].
    intros [cwd ->]%write_out_returns. apply Hone; first [done|simpl; lia].
  - intros data title. unfold export_to_markdown.
    destruct (items data) as [d|e]; [|done].
    intros [cwd ->]%write_out_returns. apply Hone; first [done|simpl; lia].
  - intros data title. unfold export_to_html.
    destruct (items data) as [d|e]; [|done].
    intros [cwd ->]%write_out_returns. apply Hone; first [done|simpl; lia].
  - intros data [cwd ->]%write_out_returns. apply Htwo; first [done|simpl; lia].
  - intros data sheet [cwd ->]%library_out_returns. apply Hone; first [done|simpl; lia].
  - intros data table [cwd ->]%library_out_returns. apply Hone; first [done|simpl; lia].
  - intros data [cwd ->]%write_out_returns. apply Htwo; first [done|simpl; lia].
Qed.

End ReturnedPathCodecs.

(** X10, witness: the name [Data.CSV] is kept, capitals and all. *)
Lemma X10_returned_path_has_extension_witness :
  snd (export_to_csv [] "Data.CSV" None empty_machine) = Return "/srv/app/Data.CSV"
  /\ PyStr.endswith (PyStr.lower "/srv/app/Data.CSV") ".csv" = true.
Proof.
  split; [reflexivity|].
  apply (proj1 (X10_returned_path_has_extension (libs := demo_libs) "Data.CSV"
                  empty_machine "/srv/app/Data.CSV") [] None).
  reflexivity.
Defined.

(** ** Returned paths are absolute *)

Section AbsolutePath.
Context {libs : Libraries}.
Import PyStr StrFacts.

Lemma startswith_slash_app s t :
  startswith s "/" = true -> startswith (s +:+ t) "/" = true.
Proof. destruct s as [|a s]; [done|]. rewrite app_cons. simpl. by case_decide. Qed.

Lemma normpath_absolute path :
  OsPath.isabs path = true -> OsPath.isabs (OsPath.normpath path) = true.
Proof.
  unfold OsPath.isabs, OsPath.normpath, OsPath.initial_slashes. intros Habs.
  rewrite Habs. case_decide as Hp; [by subst|].
  destruct (startswith path "//" && negb (startswith path "///"));
    by case_decide.
Qed.

Lemma abspath_absolute cwd path :
  OsPath.isabs cwd = true -> OsPath.isabs (OsPath.abspath cwd path) = true.
Proof.
  intros Hcwd. unfold OsPath.abspath. apply normpath_absolute.
  destruct (OsPath.isabs path) eqn:Hpath; [done|].
  unfold OsPath.isabs in *. unfold OsPath.join. rewrite Hpath.
  case_decide as E; [by subst|].
  destruct (endswith cwd "/"); by apply startswith_slash_app.
Qed.

Lemma write_out_returns_cwd what filename out st path :
  snd (guarded what (write_out filename out st)) = Return path ->
  path = OsPath.abspath (cwd st) filename.
Proof.
  unfold guarded, write_out. simpl.
  destruct (open_w filename (fst out) st) as [st' [[]|e]] eqn:Hopen; simpl; [|done].
  apply open_w_files in Hopen as [_ Hcwd].
  destruct (snd out); simpl; [done|].
  intros [= <-]. unfold abspath. by rewrite Hcwd.
Qed.

(** X11: in a process whose working directory is absolute, the path the
    codecs that write the file themselves return on success is absolute,
    whether the file name given was relative or absolute. *)
Theorem X11_returned_path_is_absolute (filename : string) (st : fsys) (path : string) :
  OsPath.isabs (cwd st) = true ->
  (forall data headers,
      snd (export_to_csv data filename headers st) = Return path ->
      OsPath.isabs path = true)
  /\ (forall data pretty,
        snd (export_to_json data filename pretty st) = Return path ->
        OsPath.isabs path = true)
  /\ (forall data root,
        snd (export_to_xml data filename root st) = Return path ->
        OsPath.isabs path = true)
  /\ (forall data title,
        snd (export_to_markdown data filename title st) = Return path ->
        OsPath.isabs path = true)
  /\ (forall data title,
        snd (export_to_html data filename title st) = Return path ->
        OsPath.isabs path = true)
  /\ (forall data,
        snd (export_to_yaml data filename st) = Return path -> OsPath.isabs path = true)
  /\ (forall data,
        snd (export_to_pickle data filename st) = Return path -> OsPath.isabs path = true).
Proof.
  intros Hcwd. repeat split.
  - intros data headers ->%write_out_returns_cwd. by apply abspath_absolute.
  - intros data pretty ->%write_out_returns_cwd. by apply abspath_absolute.
  - intros data root. unfold export_to_xml.
    destruct (items data) as [d|e]; [|done].
    destruct (toprettyxml _) as [text|e]; [|done].
    intros ->%write_out_returns_cwd. by apply abspath_absolute.
  - intros data title. unfold export_to_markdown.
    destruct (items data) as [d|e]; [|done].
    intros ->%write_out_returns_cwd. by apply abspath_absolute.
  - intros data title. unfold export_to_html.
    destruct (items data) as [d|e]; [|done].
    intros ->%write_out_returns_cwd. by apply abspath_absolute.
  - intros data ->%write_out_returns_cwd. by apply abspath_absolute.
  - intros data ->%write_out_returns_cwd. by apply abspath_absolute.
Qed.

End AbsolutePath.

(** X11, witness: a relative name on the empty machine. *)
Lemma X11_returned_path_is_absolute_witness :
  snd (export_to_json (libs := demo_libs) (VInt 1) "out" true empty_machine)
  = Return "/srv/app/out.json"
  /\ OsPath.isabs "/srv/app/out.json" = true.
Proof.
  split; [reflexivity|].
  apply (proj1 (proj2 (X11_returned_path_is_absolute (libs := demo_libs) "out"
                         empty_machine "/srv/app/out.json" eq_refl))
           (VInt 1) true).
  reflexivity.
Defined.

(** * Properties of the tools of [fixed_app.py] *)

(** ** [validate_data] *)

Section ValidateData.
Import FixedApp.

Lemma scan_count check i data valid_count invalid_values :
  (fst (scan check i data valid_count invalid_values)
   + length (failures check i data) = valid_count + length data)%nat.
Proof.
  revert i valid_count invalid_values.
  induction data as [|item data IH]; intros i vc iv; simpl; [lia|].
  destruct (check item); simpl.
  - pose proof (IH (S i) (S vc) iv). lia.
  - pose proof (IH (S i) vc (iv ++ [invalid_entry i item])). lia.
Qed.

Lemma scan_invalid check i data valid_count invalid_values :
  snd (scan check i data valid_count invalid_values)
  = invalid_values ++ map (fun p => invalid_entry (fst p) (snd p)) (failures check i data).
Proof.
  revert i valid_count invalid_values.
  induction data as [|item data IH]; intros i vc iv; simpl; [by rewrite app_nil_r|].
  destruct (check item); simpl; rewrite IH; [done|].
  by rewrite <- app_assoc.
Qed.

Lemma failures_nil check i data :
  failures check i data = [] <-> forallb check data = true.
Proof.
  revert i. induction data as [|item data IH]; intros i; simpl; [done|].
  destruct (check item); simpl; [apply IH|]. split; discriminate.
Qed.

Lemma failures_lookup check i data j x :
  (j, x) ∈ failures check i data ->
  (i <= j)%nat /\ data !! (j - i)%nat = Some x /\ check x = false.
Proof.
  revert i. induction data as [|item data IH]; intros i; simpl.
  - by intros ?%elem_of_nil.
  - destruct (check item) eqn:Hc.
    + intros (Hle & Hl & Hx)%IH. split; [lia|]. split; [|done].
      by replace (j - i)%nat with (S (j - S i)) by lia.
    + intros [[= -> ->]|(Hle & Hl & Hx)%IH]%elem_of_cons.
      * split; [lia|]. by rewrite Nat.sub_diag.
      * split; [lia|]. split; [|done].
        by replace (j - i)%nat with (S (j - S i)) by lia.
Qed.

Lemma valid_iff data expected_type :
  dict_get (entries_of (validate_data data expected_type)) "valid" = Some (VBool true)
  <-> data <> []
      /\ exists check, check_func expected_type = Some check
                       /\ forallb check data = true.
Proof.
  destruct data as [|item data]; [split; [done|by intros [? _]]|].
  unfold validate_data.
  destruct (check_func expected_type) as [check|];
    [|split; [done|by intros (_ & ? & ? & _)]].
  pose proof (scan_count check 0 (item :: data) 0 []) as Hcount.
  destruct (scan check 0 (item :: data) 0 []) as [vc iv]. cbn [fst] in Hcount.
  cbn [entries_of dict_get]. rewrite decide_True by done. split.
  - intros [= Heq%Nat.eqb_eq]. split; [done|]. exists check. split; [done|].
    apply (failures_nil check 0). apply length_zero_iff_nil.
    change (length (item :: data)) with (S (length data)) in Hcount. lia.
  - intros (_ & check' & [= <-] & Hnil). apply (failures_nil check 0) in Hnil.
    rewrite Hnil in Hcount.
    do 2 f_equal. apply Nat.eqb_eq. cbn [length] in *. lia.
Qed.

(** X12: in every answer of [validate_data], also for an empty list or
    an unknown type name, [valid_count] and [invalid_count] are
    non-negative and add up to the length of the list. *)
Theorem X12_validate_data_counts (data : list Value) (expected_type : string) :
  exists a b : Z,
    dict_get (entries_of (validate_data data expected_type)) "valid_count"
    = Some (VInt a)
    /\ dict_get (entries_of (validate_data data expected_type)) "invalid_count"
       = Some (VInt b)
    /\ 0 <= a /\ 0 <= b /\ a + b = Z.of_nat (length data).
Proof.
  destruct data as [|item data]; [exists 0, 0; by repeat split|].
  unfold validate_data.
  destruct (check_func expected_type) as [check|].
  - pose proof (scan_count check 0 (item :: data) 0 []) as Hcount.
    destruct (scan check 0 (item :: data) 0 []) as [vc iv]. cbn [fst] in Hcount.
    exists (Z.of_nat vc), (Z.of_nat (length (item :: data)) - Z.of_nat vc).
    repeat split; try done; lia.
  - exists 0, (Z.of_nat (length (item :: data))). repeat split; simpl; lia.
Qed.

(** X13: [validate_data] answers [valid: True] exactly when the list is
    not empty, the type name is one of [numeric], [string], [boolean],
    and every item passes the check of that type. *)
Theorem X13_validate_data_verdict (data : list Value) (expected_type : string) :
  dict_get (entries_of (validate_data data expected_type)) "valid" = Some (VBool true)
  <-> data <> []
      /\ exists check, check_func expected_type = Some check
                       /\ forallb check data = true.
Proof. apply valid_iff. Qed.

(** X14: for a list that is not empty and a known type, [invalid_values]
    holds the first ten items that fail the check, in the order of the
    list, each with its index, its text and the name of its type;
    [invalid_count] counts all of them, also past the tenth. *)
Theorem X14_validate_data_invalid_values (data : list Value) (expected_type : string)
    (check : Value -> bool) :
  data <> [] ->
  check_func expected_type = Some check ->
  dict_get (entries_of (validate_data data expected_type)) "invalid_values"
  = Some (VList (take 10 (map (fun p => invalid_entry (fst p) (snd p))
                            (failures check 0 data))))
  /\ dict_get (entries_of (validate_data data expected_type)) "invalid_count"
     = Some (VInt (Z.of_nat (length (failures check 0 data))))
  /\ (forall j x, (j, x) ∈ failures check 0 data ->
                  data !! j = Some x /\ check x = false).
Proof.
  intros Hdata Hcheck. destruct data as [|item data]; [done|].
  unfold validate_data. rewrite Hcheck.
  pose proof (scan_count check 0 (item :: data) 0 []) as Hcount.
  pose proof (scan_invalid check 0 (item :: data) 0 []) as Hinv.
  destruct (scan check 0 (item :: data) 0 []) as [vc iv]. cbn [fst snd] in Hcount, Hinv.
  rewrite app_nil_l in Hinv. subst iv. split; [done|]. split.
  - cbn [entries_of dict_get]. rewrite !decide_False by done.
    rewrite decide_True by done. do 2 f_equal. lia.
  - intros j x (_ & Hl & Hx)%failures_lookup.
    by rewrite Nat.sub_0_r in Hl.
Qed.

(** X15: a list that [validate_data] finds valid as [boolean] it also
    finds valid as [numeric]: [isinstance(x, (int, float))] accepts
    [True] and [False]. *)
Theorem X15_booleans_are_numeric (data : list Value) :
  dict_get (entries_of (validate_data data "boolean")) "valid" = Some (VBool true) ->
  dict_get (entries_of (validate_data data "numeric")) "valid" = Some (VBool true).
Proof.
  intros (Hdata & check & [= <-] & Hall)%valid_iff.
  apply valid_iff. split; [done|]. exists is_numeric. split; [done|].
  rewrite forallb_forall in *. intros x Hx. specialize (Hall x Hx). by destruct x.
Qed.

End ValidateData.

(** X14, witness: twelve strings checked as numbers; ten are listed,
    twelve are counted. *)
Lemma X14_validate_data_invalid_values_witness :
  dict_get (entries_of (FixedApp.validate_data (VInt 7 :: replicate 12 (VStr "x")) "numeric"))
    "invalid_count" = Some (VInt 12)
  /\ dict_get (entries_of (FixedApp.validate_data (VInt 7 :: replicate 12 (VStr "x"))
                             "numeric")) "invalid_values"
     = Some (VList (map (fun i => FixedApp.invalid_entry i (VStr "x")) (seq 1 10))).
Proof.
  destruct (X14_validate_data_invalid_values (VInt 7 :: replicate 12 (VStr "x"))
              "numeric" FixedApp.is_numeric) as (Hvalues & Hcount & _);
    [done|reflexivity|].
  split; [exact Hcount|exact Hvalues].
Defined.

(** X15, witness: two booleans. *)
Lemma X15_booleans_are_numeric_witness :
  dict_get (entries_of (FixedApp.validate_data [VBool true; VBool false] "numeric"))
    "valid" = Some (VBool true).
Proof. apply (X15_booleans_are_numeric [VBool true; VBool false]). reflexivity. Defined.

(** X13, witness: strings checked as strings are valid; checked under
    an unknown type name they are not. *)
Lemma X13_validate_data_verdict_witness :
  dict_get (entries_of (FixedApp.validate_data [VStr "a"; VStr "b"] "string")) "valid"
  = Some (VBool true)
  /\ dict_get (entries_of (FixedApp.validate_data [VStr "a"; VStr "b"] "text")) "valid"
     = Some (VBool false).
Proof.
  split; [|reflexivity].
  apply (X13_validate_data_verdict [VStr "a"; VStr "b"] "string").
  split; [done|]. exists FixedApp.is_string. by split.
Defined.

(** ** [generate_report] *)

(** X16: [generate_report] of [fixed_app.py] returns a report exactly
    when the title is not empty and the data is a dict with an entry,
    and the report is then the one [generate_report] of [app.py]
    returns.  An empty title is refused first, then data that is empty
    or false, then data that is no dict: always with a
    [ReportGenerationError], chained to the [AttributeError] in the
    last case. *)
Theorem X16_generate_report_outcomes (title : string) (data : Value) :
  (forall text,
      FixedApp.generate_report title data = FixedApp.Done text
      <-> title <> ""
          /\ (exists d, data = VDict d /\ d <> [])
          /\ App.generate_report title data = Return text)
  /\ (title = "" ->
      FixedApp.generate_report title data
      = FixedApp.Failed (FixedApp.ToolError FixedApp.ReportGenerationError
                           "Report title cannot be empty" None))
  /\ (title <> "" -> truthy data = false ->
      FixedApp.generate_report title data
      = FixedApp.Failed (FixedApp.ToolError FixedApp.ReportGenerationError
                           "Report data cannot be empty" None))
  /\ (title <> "" -> truthy data = true -> is_dict data = false ->
      FixedApp.generate_report title data
      = FixedApp.Failed
          (FixedApp.ToolError FixedApp.ReportGenerationError
             ("Report generation failed: '" +:+ type_name data
                +:+ "' object has no attribute 'items'")
             (Some (Exn AttributeError
                      ("'" +:+ type_name data +:+ "' object has no attribute 'items'")
                      None)))).
Proof.
  unfold FixedApp.generate_report, App.generate_report.
  split; [|split; [|split]].
  - intros text. destruct (decide (title = "")) as [->|Ht].
    + split; [done|by intros [? _]].
    + destruct data as [ |b|n|r|s|l|d]; simpl;
        try (split; [by repeat case_match|by intros (_ & _ & [=])]).
      case_bool_decide as Hd; simpl.
      * split; [done|]. intros (_ & (d' & [= <-] & Hne) & _). done.
      * split.
        -- intros [= <-]. split; [done|]. split; [by exists d|done].
        -- by intros (_ & _ & [= <-]).
  - intros ->. done.
  - intros Ht Hd. by rewrite decide_False, Hd.
  - intros Ht Hd Hdict. rewrite decide_False, Hd by done. by destruct data.
Qed.

(** X16, witness: a report with a dict, a list and a text section. *)
Lemma X16_generate_report_outcomes_witness :
  FixedApp.generate_report "Q3"
    (VDict [("key findings", VList [VStr "up"]);
            ("metrics", VDict [("f1_score", VFloat "0.93")]);
            ("summary", VStr "fine")])
  = FixedApp.Done
      ("# Q3" +:+ nl +:+ nl
         +:+ "## Key Findings" +:+ nl +:+ nl +:+ "- up" +:+ nl +:+ nl
         +:+ "## Metrics" +:+ nl +:+ nl +:+ "- **f1_score**: 0.93" +:+ nl +:+ nl
         +:+ "## Summary" +:+ nl +:+ nl +:+ "fine" +:+ nl +:+ nl)
  /\ FixedApp.generate_report "Q3" (VList [VInt 1])
     = FixedApp.Failed
         (FixedApp.ToolError FixedApp.ReportGenerationError
            "Report generation failed: 'list' object has no attribute 'items'"
            (Some (Exn AttributeError "'list' object has no attribute 'items'" None))).
Proof.
  split.
  - apply (proj1 (X16_generate_report_outcomes "Q3" _)).
    split; [done|]. split; [eexists; split; [reflexivity|done]|reflexivity].
  - apply (proj2 (proj2 (proj2 (X16_generate_report_outcomes "Q3" (VList [VInt 1])))));
      done.
Defined.

(** ** [analyze_data] *)

(** X17: whatever [pandas] computes or raises, [analyze_data] refuses
    the empty list and any list with an item that is no number, each
    with its own message and without calling [pandas]; every failure is
    an [AnalysisError]; and an answer comes only for a non-empty list of
    numbers, with [count] the length of the list. *)
Theorem X17_analyze_data_validation
    (pandas_stats : list Value -> result (Value * Value * Value * Value * Value))
    (data : list Value) :
  (data = [] ->
   FixedApp.analyze_data pandas_stats data
   = FixedApp.Failed (FixedApp.ToolError FixedApp.AnalysisError
                        "Input data list cannot be empty" None))
  /\ (forall x, x ∈ data -> FixedApp.is_numeric x = false ->
      FixedApp.analyze_data pandas_stats data
      = FixedApp.Failed (FixedApp.ToolError FixedApp.AnalysisError
                           "All elements in data must be numeric" None))
  /\ (forall cls msg cause,
        FixedApp.analyze_data pandas_stats data
        = FixedApp.Failed (FixedApp.ToolError cls msg cause) ->
        cls = FixedApp.AnalysisError)
  /\ (forall answer,
        FixedApp.analyze_data pandas_stats data = FixedApp.Done answer ->
        data <> [] /\ forallb FixedApp.is_numeric data = true
        /\ dict_get (entries_of answer) "count"
           = Some (VInt (Z.of_nat (length data)))).
Proof.
  unfold FixedApp.analyze_data. split; [by intros ->|]. split; [|split].
  - intros x Hin Hx. destruct data as [|item data]; [by apply elem_of_nil in Hin|].
    assert (forallb FixedApp.is_numeric (item :: data) = false) as ->; [|done].
    destruct (forallb _ _) eqn:E; [|done].
    rewrite forallb_forall in E. rewrite <- Hx. symmetry. apply E.
    by apply list_elem_of_In.
  - intros cls msg cause. destruct data as [|item data]; [by intros [= <- _ _]|].
    destruct (negb _); [by intros [= <- _ _]|].
    destruct (pandas_stats _) as [[[[[? ?] ?] ?] ?]|e]; [done|by intros [= <- _ _]].
  - intros answer. destruct data as [|item data]; [done|].
    destruct (forallb _ _) eqn:E; simpl; [|done].
    destruct (pandas_stats _) as [[[[[? ?] ?] ?] ?]|e]; [|done].
    by intros [= <-].
Qed.

(** X17, witness: a list with a string in it, under statistics that
    would answer zeros. *)
Lemma X17_analyze_data_validation_witness :
  FixedApp.analyze_data
    (fun _ => Return (VFloat "0.0", VFloat "0.0", VFloat "0.0", VFloat "0.0", VFloat "0.0"))
    [VInt 1; VStr "two"]
  = FixedApp.Failed (FixedApp.ToolError FixedApp.AnalysisError
                       "All elements in data must be numeric" None).
Proof.
  apply (proj1 (proj2 (X17_analyze_data_validation _ [VInt 1; VStr "two"]))
           (VStr "two")); [by right; left|reflexivity].
Defined.

(** * Properties of the configuration of [config.py] *)

Module ConfigFacts.
Import Config.

(** Each [asdict] is read back by its constructor. *)
Lemma ServerConfig_roundtrip (c : ServerConfig) :
  construct ServerConfig_set "ServerConfig" ServerConfig_default (ServerConfig_asdict c)
  = Built c.
Proof. by destruct c. Qed.

Lemma DatabaseConfig_roundtrip (c : DatabaseConfig) :
  construct DatabaseConfig_set "DatabaseConfig" DatabaseConfig_default
    (DatabaseConfig_asdict c) = Built c.
Proof. by destruct c. Qed.

Lemma AnalysisConfig_roundtrip (c : AnalysisConfig) :
  construct AnalysisConfig_set "AnalysisConfig" AnalysisConfig_default
    (AnalysisConfig_asdict c) = Built c.
Proof. by destruct c. Qed.

Lemma ExportConfig_roundtrip (c : ExportConfig) :
  construct ExportConfig_set "ExportConfig" ExportConfig_default (ExportConfig_asdict c)
  = Built c.
Proof. by destruct c. Qed.

Lemma SecurityConfig_roundtrip (c : SecurityConfig) :
  construct SecurityConfig_set "SecurityConfig" SecurityConfig_default
    (SecurityConfig_asdict c) = Built c.
Proof. by destruct c. Qed.

Lemma from_dict_to_dict (c : AppConfig) : from_dict (to_dict c) = Built c.
Proof.
  destruct c as [s d a e y].
  change (from_dict (to_dict (Build_AppConfig s d a e y))) with
    (match construct ServerConfig_set "ServerConfig" ServerConfig_default
             (ServerConfig_asdict s) with
     | TypeError m => TypeError m
     | Built s' =>
     match construct DatabaseConfig_set "DatabaseConfig" DatabaseConfig_default
             (DatabaseConfig_asdict d) with
     | TypeError m => TypeError m
     | Built d' =>
     match construct AnalysisConfig_set "AnalysisConfig" AnalysisConfig_default
             (AnalysisConfig_asdict a) with
     | TypeError m => TypeError m
     | Built a' =>
     match construct ExportConfig_set "ExportConfig" ExportConfig_default
             (ExportConfig_asdict e) with
     | TypeError m => TypeError m
     | Built e' =>
     match construct SecurityConfig_set "SecurityConfig" SecurityConfig_default
             (SecurityConfig_asdict y) with
     | TypeError m => TypeError m
     | Built y' => Built (Build_AppConfig s' d' a' e' y')
     end end end end end).
  by rewrite ServerConfig_roundtrip, DatabaseConfig_roundtrip, AnalysisConfig_roundtrip,
    ExportConfig_roundtrip, SecurityConfig_roundtrip.
Qed.

(** A dictionary of all five sections replaces every section it is merged
    into. *)
Lemma merge_to_dict (c c' : AppConfig) : dict_merge (to_dict c) (to_dict c') = to_dict c'.
Proof. reflexivity. Qed.

(** Which keywords a constructor knows. *)
Lemma ServerConfig_set_fields c k v :
  is_Some (ServerConfig_set c k v) <-> k ∈ ["host"; "port"; "debug"; "log_level"].
Proof.
  unfold ServerConfig_set. rewrite !elem_of_cons, elem_of_nil.
  repeat case_decide;
    (split;
     [intros [? E]; first [discriminate E | tauto]
     |intros H'; first [by eexists | exfalso; tauto]]).
Qed.

Lemma DatabaseConfig_set_fields c k v :
  is_Some (DatabaseConfig_set c k v)
  <-> k ∈ ["use_mock"; "connection_timeout"; "max_retries"].
Proof.
  unfold DatabaseConfig_set. rewrite !elem_of_cons, elem_of_nil.
  repeat case_decide;
    (split;
     [intros [? E]; first [discriminate E | tauto]
     |intros H'; first [by eexists | exfalso; tauto]]).
Qed.

Lemma AnalysisConfig_set_fields c k v :
  is_Some (AnalysisConfig_set c k v) <-> k ∈ ["default_precision"; "max_data_points"].
Proof.
  unfold AnalysisConfig_set. rewrite !elem_of_cons, elem_of_nil.
  repeat case_decide;
    (split;
     [intros [? E]; first [discriminate E | tauto]
     |intros H'; first [by eexists | exfalso; tauto]]).
Qed.

Lemma ExportConfig_set_fields c k v :
  is_Some (ExportConfig_set c k v)
  <-> k ∈ ["output_dir"; "default_format"; "max_file_size_mb"].
Proof.
  unfold ExportConfig_set. rewrite !elem_of_cons, elem_of_nil.
  repeat case_decide;
    (split;
     [intros [? E]; first [discriminate E | tauto]
     |intros H'; first [by eexists | exfalso; tauto]]).
Qed.

Lemma SecurityConfig_set_fields c k v :
  is_Some (SecurityConfig_set c k v)
  <-> k ∈ ["enable_authentication"; "api_key_required"].
Proof.
  unfold SecurityConfig_set. rewrite !elem_of_cons, elem_of_nil.
  repeat case_decide;
    (split;
     [intros [? E]; first [discriminate E | tauto]
     |intros H'; first [by eexists | exfalso; tauto]]).
Qed.

(** A constructor returns exactly on keywords that are all fields. *)
Lemma init_kwargs_built {R : Type} (set : R -> string -> Value -> option R)
    (cls : string) (fields : list string) :
  (forall c k v, is_Some (set c k v) <-> k ∈ fields) ->
  forall kwargs c,
    (exists c', init_kwargs set cls c kwargs = Built c')
    <-> forallb (fun k => bool_decide (k ∈ fields)) (map fst kwargs) = true.
Proof.
  intros Hset kwargs. induction kwargs as [|[k v] kwargs IH]; intros c; cbn.
  - split; eauto.
  - rewrite andb_true_iff, bool_decide_eq_true, <- (Hset c k v).
    destruct (set c k v) as [c'|] eqn:E.
    + rewrite IH. split; [intros H'; split; eauto | by intros [_ H']].
    + split; [by intros [? [=]] | by intros [[? [=]] _]].
Qed.

Lemma section_of_built {R : Type} (set : R -> string -> Value -> option R)
    (cls : string) (default : R) (fields : list string)
    (d : list (string * Value)) (name : string) :
  (forall c k v, is_Some (set c k v) <-> k ∈ fields) ->
  (exists x, section_of d name set cls default = Built x)
  <-> match dict_get d name with
      | None => true
      | Some section => accepted_section fields section
      end = true.
Proof.
  intros Hset. unfold section_of.
  destruct (dict_get d name) as [section|]; [|split; eauto].
  destruct section; cbn; try (split; [by intros [? [=]] | done]).
  by apply init_kwargs_built.
Qed.

(** The environment: a conversion that raises ends the loading. *)
Lemma apply_settings_stops (before after : list setting) (s : setting)
    (environ : gmap string string) (text : string) :
  environ !! variable s = Some text ->
  convert s text = None ->
  forall c, apply_settings (before ++ s :: after) environ c
            = apply_settings before environ c.
Proof.
  intros Hvar Hconv. induction before as [|s' before IH]; intros c; cbn.
  - by rewrite Hvar, Hconv.
  - destruct (environ !! variable s') as [text'|]; [|apply IH].
    destruct (convert s' text'); [apply IH|done].
Qed.

Lemma apply_settings_unset (settings : list setting) (environ : gmap string string) :
  (forall s, s ∈ settings -> environ !! variable s = None) ->
  forall c, apply_settings settings environ c = c.
Proof.
  induction settings as [|s settings IH]; intros Hunset c; cbn; [done|].
  rewrite (Hunset s) by (apply elem_of_cons; by left).
  apply IH. intros s' Hs'. apply Hunset. apply elem_of_cons. by right.
Qed.

End ConfigFacts.

(** X18. [AppConfig.from_dict] reads back what [AppConfig.to_dict] wrote:
    for every configuration object, whatever values its fields hold,
    [from_dict(c.to_dict())] returns an object equal to [c]. *)
Theorem X18_config_round_trip (c : Config.AppConfig) :
  Config.from_dict (Config.to_dict c) = Config.Built c.
Proof. apply ConfigFacts.from_dict_to_dict. Qed.

(** X19. [ConfigManager.update_config] does not merge: since the
    dictionary of the updated object always has all five sections, the
    merge overwrites every section of the current configuration.  The new
    configuration is [AppConfig.from_dict(config_update)] alone, so each
    setting the update does not name goes back to its default whatever
    the manager held, and a rejected update raises the same error. *)
Theorem X19_update_config_forgets_current (current : Config.AppConfig)
    (config_update : list (string * Value)) :
  Config.update_config current config_update = Config.from_dict config_update.
Proof.
  unfold Config.update_config.
  destruct (Config.from_dict config_update) as [updated|m]; [|done].
  rewrite ConfigFacts.merge_to_dict. apply ConfigFacts.from_dict_to_dict.
Qed.

(** An export directory set earlier is lost by an update of the port. *)
Example update_config_resets_output_dir :
  let current :=
    Config.on_export
      (Config.assign Config.ExportConfig_set "output_dir" (VStr "/data"))
      Config.AppConfig_default in
  Config.update_config current [("server", VDict [("port", VInt 9000)])]
  = Config.Built
      (Config.on_server (Config.assign Config.ServerConfig_set "port" (VInt 9000))
         Config.AppConfig_default).
Proof. reflexivity. Qed.

(** X20. [AppConfig.from_dict] returns exactly when every section present
    in the dictionary is a mapping whose keys are all fields of the
    section's dataclass; otherwise a constructor raises [TypeError].  Keys
    of the dictionary other than the five section names are not looked
    at. *)
Theorem X20_from_dict_accepts (config_dict : list (string * Value)) :
  (exists c, Config.from_dict config_dict = Config.Built c)
  <-> accepted_config config_dict = true.
Proof.
  unfold accepted_config, config_sections. cbn [forallb fst snd].
  rewrite !andb_true_iff.
  pose proof (ConfigFacts.section_of_built Config.ServerConfig_set "ServerConfig"
    Config.ServerConfig_default _ config_dict "server"
    ConfigFacts.ServerConfig_set_fields) as H1.
  pose proof (ConfigFacts.section_of_built Config.DatabaseConfig_set "DatabaseConfig"
    Config.DatabaseConfig_default _ config_dict "database"
    ConfigFacts.DatabaseConfig_set_fields) as H2.
  pose proof (ConfigFacts.section_of_built Config.AnalysisConfig_set "AnalysisConfig"
    Config.AnalysisConfig_default _ config_dict "analysis"
    ConfigFacts.AnalysisConfig_set_fields) as H3.
  pose proof (ConfigFacts.section_of_built Config.ExportConfig_set "ExportConfig"
    Config.ExportConfig_default _ config_dict "export"
    ConfigFacts.ExportConfig_set_fields) as H4.
  pose proof (ConfigFacts.section_of_built Config.SecurityConfig_set "SecurityConfig"
    Config.SecurityConfig_default _ config_dict "security"
    ConfigFacts.SecurityConfig_set_fields) as H5.
  rewrite <- H1, <- H2, <- H3, <- H4, <- H5. clear H1 H2 H3 H4 H5.
  unfold Config.from_dict.
  destruct (Config.section_of config_dict "server" _ _ _);
    [|split; [by intros [? [=]] | by intros [[? [=]] _]]].
  destruct (Config.section_of config_dict "database" _ _ _);
    [|split; [by intros [? [=]] | by intros (_ & [? [=]] & _)]].
  destruct (Config.section_of config_dict "analysis" _ _ _);
    [|split; [by intros [? [=]] | by intros (_ & _ & [? [=]] & _)]].
  destruct (Config.section_of config_dict "export" _ _ _);
    [|split; [by intros [? [=]] | by intros (_ & _ & _ & [? [=]] & _)]].
  destruct (Config.section_of config_dict "security" _ _ _);
    [|split; [by intros [? [=]] | by intros (_ & _ & _ & _ & [? [=]] & _)]].
  split; [intros _; repeat split; eauto | eauto].
Qed.

(** A section that is [None], and a misspelt field, are refused; a key
    beside the sections is not. *)
Example from_dict_refuses_null_section :
  exists m, Config.from_dict [("server", VNone)] = Config.TypeError m.
Proof. eexists. reflexivity. Qed.

Example from_dict_refuses_unknown_field :
  exists m,
    Config.from_dict [("export", VDict [("output_directory", VStr "/data")])]
    = Config.TypeError m.
Proof. eexists. reflexivity. Qed.

Example from_dict_ignores_other_keys :
  Config.from_dict [("logging", VDict [("level", VStr "DEBUG")])]
  = Config.Built Config.AppConfig_default.
Proof. reflexivity. Qed.

(** X21. In [ConfigManager.load_from_env] one [try] holds all the
    settings: when a variable is set to a text its conversion ([int] or
    [float]) rejects, the variables after it in the source are not applied,
    whatever they hold, while those before it stay applied; no error
    leaves the method. *)
Theorem X21_env_failure_stops_loading (int_of : string -> option Z)
    (float_of : string -> option string) (environ : gmap string string)
    (before after : list Config.setting) (s : Config.setting) (text : string)
    (c : Config.AppConfig) :
  Config.env_settings int_of float_of = before ++ s :: after ->
  environ !! Config.variable s = Some text ->
  Config.convert s text = None ->
  Config.load_from_env int_of float_of environ c
  = Config.apply_settings before environ c.
Proof.
  intros Hsplit Hvar Hconv. unfold Config.load_from_env. rewrite Hsplit.
  by apply ConfigFacts.apply_settings_stops with text.
Qed.

Lemma X21_env_failure_stops_loading_witness :
  let environ : gmap string string :=
    <["MCP_SERVER_HOST" := "example.org"]>
      (<["MCP_SERVER_PORT" := "http"]> (<["MCP_EXPORT_DIR" := "/data"]> ∅)) in
  Config.load_from_env decimal (fun _ => None) environ Config.AppConfig_default
  = Config.on_server
      (Config.assign Config.ServerConfig_set "host" (VStr "example.org"))
      Config.AppConfig_default.
Proof.
  intros environ.
  etrans.
  - apply (X21_env_failure_stops_loading decimal (fun _ => None) environ
             (take 1 (Config.env_settings decimal (fun _ => None)))
             (drop 2 (Config.env_settings decimal (fun _ => None)))
             {| Config.variable := "MCP_SERVER_PORT";
                Config.convert := Config.as_int decimal;
                Config.store := fun v =>
                  Config.on_server (Config.assign Config.ServerConfig_set "port" v) |}
             "http").
    + reflexivity.
    + vm_compute. reflexivity.
    + vm_compute. reflexivity.
  - vm_compute. reflexivity.
Defined.

(** X22. [ConfigManager()] never fails on its defaults: [DEFAULT_CONFIG]
    is accepted by [from_dict] and gives the defaults of the dataclasses,
    and in an environment that sets none of the fourteen variables the
    manager holds exactly [AppConfig()]. *)
Theorem X22_manager_defaults (int_of : string -> option Z)
    (float_of : string -> option string) (environ : gmap string string) :
  (forall s, s ∈ Config.env_settings int_of float_of ->
             environ !! Config.variable s = None) ->
  Config.ConfigManager_init int_of float_of environ
  = Config.Built Config.AppConfig_default.
Proof.
  intros Hunset.
  change (Config.ConfigManager_init int_of float_of environ)
    with (Config.Built
            (Config.apply_settings (Config.env_settings int_of float_of) environ
               Config.AppConfig_default)).
  f_equal. by apply ConfigFacts.apply_settings_unset.
Qed.

Lemma X22_manager_defaults_witness :
  Config.ConfigManager_init decimal (fun _ => None) (<["HOME" := "/root"]> ∅)
  = Config.Built Config.AppConfig_default.
Proof.
  apply (X22_manager_defaults decimal (fun _ => None) (<["HOME" := "/root"]> ∅)).
  intros s Hs. unfold Config.env_settings in Hs.
  repeat (apply elem_of_cons in Hs as [->|Hs]; [vm_compute; reflexivity|]).
  by apply elem_of_nil in Hs.
Defined.
